(** * clickupy: the ClickUp REST client ([clickupy/client.py])

    A shallow embedding of [ClickUpClient]: the four request primitives
    ([__get_request], [__post_request], [__put_request], [__delete_request])
    and the resource methods built on them, followed by the properties of
    the request dispatcher and of the request bodies.

    Python values are modelled by [pyval]; a raised exception by [Raise];
    the network and the file system by the fields of [Env]; the HTTP
    requests a call performs are collected, in order, next to its result. *)

From Stdlib Require Import String ZArith List Bool Lia.
Import ListNotations.
Local Open Scope string_scope.
Local Open Scope Z_scope.
Local Open Scope list_scope.
Set Warnings "-register-all".

(** ** Python values *)

(** The values the client handles: JSON-like data, plus class instances
    ([PObject], e.g. [self] and the records made by the builders) and
    [PAlias], a reference to a local variable holding a dict that is stored
    inside that same dict ([arguments.update(vars())] stores [arguments]
    under its own key before it is popped). *)
Inductive pyval : Type :=
| PNone
| PBool (b : bool)
| PInt (n : Z)
| PStr (s : string)
| PList (items : list pyval)
| PDict (entries : list (string * pyval))
| PObject (cls : string) (attrs : list (string * pyval))
| PAlias (name : string).

Inductive exn : Type :=
| ClickupClientError (message : pyval) (status_code : pyval)
| NameError (name : string)
| UnboundLocalError (name : string)
| KeyError (key : string)
| TypeError (what : string)
| JSONDecodeError
| OSError (path : string)
| OtherError (name : string).

Inductive result (A : Type) : Type :=
| Return (a : A)
| Raise (e : exn).
Arguments Return {A} a.
Arguments Raise {A} e.

Definition is_none (v : pyval) : bool :=
  match v with PNone => true | _ => false end.

(** Conversions of typed arguments to Python values. *)
Definition of_opt {A : Type} (f : A -> pyval) (o : option A) : pyval :=
  match o with Some a => f a | None => PNone end.
Definition PInts (l : list Z) : pyval := PList (map PInt l).
Definition PStrs (l : list string) : pyval := PList (map PStr l).

(** ** Dicts: insertion-ordered association lists *)

Definition dict := list (string * pyval).

Definition keys (d : dict) : list string := map fst d.

Fixpoint dict_get (k : string) (d : dict) : option pyval :=
  match d with
  | [] => None
  | (k', v) :: d' => if String.eqb k k' then Some v else dict_get k d'
  end.

(** [d[k] = v]: an existing key keeps its place, a new one goes last. *)
Fixpoint dict_set (k : string) (v : pyval) (d : dict) : dict :=
  match d with
  | [] => [(k, v)]
  | (k', v') :: d' =>
      if String.eqb k k' then (k, v) :: d' else (k', v') :: dict_set k v d'
  end.

(** [d.update(other)] *)
Definition dict_update (d other : dict) : dict :=
  fold_left (fun acc kv => dict_set (fst kv) (snd kv) acc) other d.

(** [d.pop(k, None)], for its effect on [d]. *)
Definition dict_pop (k : string) (d : dict) : dict :=
  filter (fun kv => negb (String.eqb k (fst kv))) d.

(** [{k: v for k, v in d.items() if v is not None}] *)
Definition drop_none (d : dict) : dict :=
  filter (fun kv => negb (is_none (snd kv))) d.

(** [v[k]] for a string [k]. *)
Definition getitem (v : pyval) (k : string) : result pyval :=
  match v with
  | PDict d => match dict_get k d with
               | Some x => Return x
               | None => Raise (KeyError k)
               end
  | _ => Raise (TypeError "subscript")
  end.

(** ** The outside world *)

Inductive http_method : Type := GET | POST | PUT | DELETE.

(** An open file: [name] is the path it was opened with. *)
Record file : Type := { file_name : string; file_bytes : string }.

(** What is passed as [data=]: the text made by [json.dumps], kept as the
    value it serialises, or a dict of form fields. *)
Inductive body : Type :=
| NoBody
| JsonText (v : pyval)
| FormFields (d : dict).

Record request : Type := {
  req_method : http_method;
  req_url : string;
  req_headers : list (string * string);
  req_data : body;
  req_files : option (list (string * (string * file)))
}.

(** A [requests.Response]: [resp_json] is what [response.json()] returns,
    [None] when the content is not JSON and [json()] raises. *)
Record response : Type := {
  status_code : Z;
  resp_json : option pyval
}.

(** [Response.ok]: true unless [raise_for_status()] would raise, which it
    does for the client and server error codes 400..599. *)
Definition ok (r : response) : bool :=
  negb ((400 <=? status_code r) && (status_code r <? 600)).

(** What the client depends on and [client.py] does not define: the helper
    modules of the package ([helpers.formatting], [helpers.timefuncs], the
    builders of the resource modules), the HTTP server, the file system and
    the truth value of class instances. The server always answers: failures
    of the connection itself are outside the model. *)
Record Env : Type := {
  (** [formatting.url_join], applied to all its positional arguments *)
  url_join : list string -> string;
  (** [timefuncs.fuzzy_time_to_unix(text)] *)
  fuzzy_time_to_unix : string -> result pyval;
  build_list : pyval -> result pyval;
  build_lists : pyval -> result pyval;
  build_folder : pyval -> result pyval;
  build_folders : pyval -> result pyval;
  build_attachment : pyval -> result pyval;
  build_task : pyval -> result pyval;
  build_tasks : pyval -> result pyval;
  build_comment : pyval -> result pyval;
  build_comments : pyval -> result pyval;
  (** the server's answer to a request, given the requests seen before *)
  http : list request -> request -> response;
  (** [os.path.exists] *)
  fs_exists : string -> bool;
  (** content of a file that [open(path, 'rb')] can open *)
  fs_read : string -> option string;
  (** [ntpath.basename] *)
  ntpath_basename : string -> string;
  (** [bool(obj)] for an instance of class [cls] *)
  object_truthy : string -> dict -> bool
}.

(** [bool(v)] *)
Definition truthy (E : Env) (v : pyval) : bool :=
  match v with
  | PNone => false
  | PBool b => b
  | PInt n => negb (n =? 0)
  | PStr s => negb (String.eqb s "")
  | PList l => match l with [] => false | _ => true end
  | PDict d => match d with [] => false | _ => true end
  | PObject cls attrs => object_truthy E cls attrs
  | PAlias _ => true
  end.

(** [json.dumps(v)] raises [TypeError] on what is not JSON data. *)
Fixpoint json_serializable (v : pyval) : bool :=
  match v with
  | PNone | PBool _ | PInt _ | PStr _ => true
  | PList l => forallb json_serializable l
  | PDict d => forallb (fun kv => json_serializable (snd kv)) d
  | PObject _ _ | PAlias _ => false
  end.

Definition json_dumps (v : pyval) : result body :=
  if json_serializable v then Return (JsonText v)
  else Raise (TypeError "not JSON serializable").

(** [open(path, 'rb')] *)
Definition py_open (E : Env) (path : string) : result file :=
  match fs_read E path with
  | Some b => Return {| file_name := path; file_bytes := b |}
  | None => Raise (OSError path)
  end.

(** ** Computations: a result and the requests performed

    A computation reads the requests performed before it started and yields
    its result together with the requests it performed itself; an exception
    keeps the requests performed before it was raised. *)
Definition M (A : Type) : Type := list request -> result A * list request.

Definition ret {A : Type} (a : A) : M A := fun _ => (Return a, []).
Definition raise {A : Type} (e : exn) : M A := fun _ => (Raise e, []).
Definition lift {A : Type} (r : result A) : M A := fun _ => (r, []).

Definition bind {A B : Type} (m : M A) (f : A -> M B) : M B :=
  fun h =>
    match fst (m h) with
    | Return a => (fst (f a (h ++ snd (m h))),
                   snd (m h) ++ snd (f a (h ++ snd (m h))))
    | Raise e => (Raise e, snd (m h))
    end.

Declare Scope py_scope.
Delimit Scope py_scope with py.
Notation "x <- m ;; k" := (bind m (fun x => k))
  (at level 61, m at next level, right associativity) : py_scope.
Local Open Scope py_scope.

(** [requests.get/post/put/delete]: one request, answered by the server. *)
Definition send (E : Env) (q : request) : M response :=
  fun h => (Return (http E h q), [q]).

(** [response.json()] *)
Definition json_of (r : response) : result pyval :=
  match resp_json r with
  | Some j => Return j
  | None => Raise JSONDecodeError
  end.

(** ** The client *)

Definition API_URL : string := "https://api.clickup.com/api/v2/".

Record ClickUpClient : Type := {
  api_url : string;
  accesstoken : string
}.

(** [ClickUpClient(accesstoken, api_url=API_URL)] *)
Definition init (token : string) (url : option string) : ClickUpClient :=
  {| api_url := match url with Some u => u | None => API_URL end;
     accesstoken := token |}.

(** [self], as [vars()] sees it. *)
Definition self_value (self : ClickUpClient) : pyval :=
  PObject "ClickUpClient"
    [("api_url", PStr (api_url self)); ("accesstoken", PStr (accesstoken self))].

Definition headers (self : ClickUpClient) (file_upload : bool)
  : list (string * string) :=
  if file_upload then [("Authorization", accesstoken self)]
  else [("Authorization", accesstoken self);
        ("Content-Type", "application/json")].

(** *** The request primitives *)

Definition get_req (E : Env) (self : ClickUpClient) (model : string)
  (additionalpath : list string) : request :=
  {| req_method := GET;
     req_url := url_join E (API_URL :: model :: additionalpath);
     req_headers := headers self false;
     req_data := NoBody;
     req_files := None |}.

Definition get_request (E : Env) (self : ClickUpClient) (model : string)
  (additionalpath : list string) : M pyval :=
  response <- send E (get_req E self model additionalpath) ;;
  response_json <- lift (json_of response) ;;
  if status_code response =? 429 then
    raise (ClickupClientError (PStr "Rate limit exceeded")
                              (PInt (status_code response)))
  else if existsb (Z.eqb (status_code response)) [401; 400] then
    err <- lift (getitem response_json "err") ;;
    raise (ClickupClientError err (PInt (status_code response)))
  else if ok response then ret response_json
  else ret PNone.

(** [if upload_files:] is false for [None] and for an empty list. *)
Definition has_files (upload_files : option (list (string * (string * file))))
  : bool :=
  match upload_files with
  | Some (_ :: _) => true
  | _ => false
  end.

Definition post_req (E : Env) (self : ClickUpClient) (model : string)
  (data : body) (upload_files : option (list (string * (string * file))))
  (additionalpath : list string) : request :=
  if has_files upload_files then
    {| req_method := POST;
       req_url := url_join E (API_URL :: model :: additionalpath);
       req_headers := headers self true;
       req_data := data;
       req_files := upload_files |}
  else
    {| req_method := POST;
       req_url := url_join E (API_URL :: model :: additionalpath);
       req_headers := headers self false;
       req_data := data;
       req_files := None |}.

(** [file_upload] is accepted and not read. *)
Definition post_request (E : Env) (self : ClickUpClient) (model : string)
  (data : body) (upload_files : option (list (string * (string * file))))
  (file_upload : bool) (additionalpath : list string) : M pyval :=
  response <- send E (post_req E self model data upload_files additionalpath) ;;
  response_json <- lift (json_of response) ;;
  if (status_code response =? 401) || (status_code response =? 400)
     || (status_code response =? 500) then
    err <- lift (getitem response_json "err") ;;
    raise (ClickupClientError err (PInt (status_code response)))
  else if ok response then ret response_json
  else ret PNone.

Definition put_req (E : Env) (self : ClickUpClient) (model : string)
  (data : body) (additionalpath : list string) : request :=
  {| req_method := PUT;
     req_url := url_join E (API_URL :: model :: additionalpath);
     req_headers := headers self false;
     req_data := data;
     req_files := None |}.

Definition put_request (E : Env) (self : ClickUpClient) (model : string)
  (data : body) (additionalpath : list string) : M pyval :=
  response <- send E (put_req E self model data additionalpath) ;;
  response_json <- lift (json_of response) ;;
  if (status_code response =? 401) || (status_code response =? 400) then
    err <- lift (getitem response_json "err") ;;
    raise (ClickupClientError err (PInt (status_code response)))
  else if ok response then ret response_json
  else ret PNone.

Definition delete_req (E : Env) (self : ClickUpClient) (model : string)
  (additionalpath : list string) : request :=
  {| req_method := DELETE;
     req_url := url_join E (API_URL :: model :: additionalpath);
     req_headers := headers self false;
     req_data := NoBody;
     req_files := None |}.

(** The [else] branch reads [response_json], a name this function never
    binds: evaluating the arguments of [ClickupClientError] raises
    [NameError] before the error object is built. *)
Definition delete_request (E : Env) (self : ClickUpClient) (model : string)
  (additionalpath : list string) : M pyval :=
  response <- send E (delete_req E self model additionalpath) ;;
  if ok response then ret (PInt (status_code response))
  else
    response_json <- raise (NameError "response_json") ;;
    err <- lift (getitem response_json "err") ;;
    raise (ClickupClientError err (PInt (status_code response))).

(** ** Resource methods *)

(** [if x: return build(x)], with the implicit [return None] otherwise. *)
Definition build_if_truthy (E : Env) (build : pyval -> result pyval)
  (fetched : pyval) : M pyval :=
  if truthy E fetched then lift (build fetched) else ret PNone.

(** [y = build(x)] followed by [if y: return y]. *)
Definition build_then_check (E : Env) (build : pyval -> result pyval)
  (fetched : pyval) : M pyval :=
  final <- lift (build fetched) ;;
  if truthy E final then ret final else ret PNone.

(** *** Lists *)

Definition get_list (E : Env) (self : ClickUpClient) (list_id : string)
  : M pyval :=
  fetched_list <- get_request E self "list/" [list_id] ;;
  lift (build_list E fetched_list).

Definition get_lists (E : Env) (self : ClickUpClient) (folder_id : string)
  : M pyval :=
  fetched_lists <- get_request E self "folder/" [folder_id] ;;
  lift (build_lists E fetched_lists).

(** Python does not enforce the annotations [str] and [int]: each argument
    may also be [None]. *)
Record create_list_args : Type := {
  cl_folder_id : string;
  cl_name : option string;
  cl_content : option string;
  cl_due_date : option string;
  cl_priority : option Z;
  cl_status : option string
}.

Definition create_list_data (a : create_list_args) : dict :=
  [("name", of_opt PStr (cl_name a));
   ("content", of_opt PStr (cl_content a));
   ("due_date", of_opt PStr (cl_due_date a));
   ("status", of_opt PStr (cl_status a))].

Definition create_list (E : Env) (self : ClickUpClient) (a : create_list_args)
  : M pyval :=
  data <- lift (json_dumps (PDict (create_list_data a))) ;;
  created_list <-
    post_request E self "folder/" data None false [cl_folder_id a; "list"] ;;
  build_if_truthy E (build_list E) created_list.

(** *** Folders *)

Definition get_folder (E : Env) (self : ClickUpClient) (folder_id : string)
  : M pyval :=
  fetched_folder <- get_request E self "folder/" [folder_id] ;;
  build_if_truthy E (build_folder E) fetched_folder.

Definition get_folders (E : Env) (self : ClickUpClient) (space_id : string)
  : M pyval :=
  fetched_folders <- get_request E self "space/" [space_id; "folder"] ;;
  build_if_truthy E (build_folders E) fetched_folders.

Definition create_folder (E : Env) (self : ClickUpClient)
  (space_id name : string) : M pyval :=
  data <- lift (json_dumps (PDict [("name", PStr name)])) ;;
  created_folder <-
    post_request E self "space/" data None false [space_id; "folder"] ;;
  build_if_truthy E (build_folder E) created_folder.

Definition update_folder (E : Env) (self : ClickUpClient)
  (folder_id name : string) : M pyval :=
  data <- lift (json_dumps (PDict [("name", PStr name)])) ;;
  updated_folder <- put_request E self "folder/" data [folder_id] ;;
  build_if_truthy E (build_folder E) updated_folder.

Definition delete_folder (E : Env) (self : ClickUpClient) (folder_id : string)
  : M pyval :=
  deleted_folder_status <- delete_request E self "folder/" [folder_id] ;;
  ret (PBool true).

(** *** Attachments *)

(** [final_attachment] is bound only when the upload returned something
    truthy; [return final_attachment] is reached either way. *)
Definition upload_attachment (E : Env) (self : ClickUpClient)
  (task_id file_path : string) : M pyval :=
  if fs_exists E file_path then
    f <- lift (py_open E file_path) ;;
    f' <- lift (py_open E file_path) ;;
    let files := [("attachment", (file_name f, f'))] in
    let data := FormFields [("filename", PStr (ntpath_basename E (file_name f)))] in
    let model := ("task/" ++ task_id)%string in
    uploaded_attachment <-
      post_request E self model data (Some files) true ["attachment"] ;;
    if truthy E uploaded_attachment then
      final_attachment <- lift (build_attachment E uploaded_attachment) ;;
      ret final_attachment
    else raise (UnboundLocalError "final_attachment")
  else ret PNone.

(** *** Tasks *)

Definition get_task (E : Env) (self : ClickUpClient) (task_id : string)
  : M pyval :=
  fetched_task <- get_request E self "task/" [task_id] ;;
  build_then_check E (build_task E) fetched_task.

Definition get_tasks (E : Env) (self : ClickUpClient) (list_id : string)
  : M pyval :=
  fetched_tasks <- get_request E self "list/" [list_id; "task"] ;;
  lift (build_tasks E fetched_tasks).

Definition in_range (lo hi n : Z) : bool := (lo <=? n) && (n <? hi).

(** [priority and priority not in range(1, 4)] *)
Definition priority_rejected (priority : option Z) : bool :=
  match priority with
  | None => false
  | Some p => negb (p =? 0) && negb (in_range 1 4 p)
  end.

Definition priority_error : exn :=
  ClickupClientError (PStr "Priority must be in range of 0-4.")
                     (PStr "Priority out of range").

Record create_task_args : Type := {
  ct_list_id : string;
  ct_name : string;
  ct_description : option string;
  ct_priority : option Z;
  ct_assignees : option (list Z);
  ct_tags : option (list string);
  ct_status : option string;
  ct_due_date : option string;
  ct_start_date : option string;
  ct_notify_all : bool
}.

(** [create_task(list_id, name)], every other parameter at its default. *)
Definition create_task_defaults (list_id name : string) : create_task_args :=
  {| ct_list_id := list_id; ct_name := name; ct_description := None;
     ct_priority := None; ct_assignees := None; ct_tags := None;
     ct_status := None; ct_due_date := None; ct_start_date := None;
     ct_notify_all := true |}.

(** [if due_date: due_date = fuzzy_time_to_unix(due_date)] *)
Definition convert_due_date (E : Env) (due_date : option string)
  : result pyval :=
  match due_date with
  | None => Return PNone
  | Some s => if negb (String.eqb s "") then fuzzy_time_to_unix E s
              else Return (PStr s)
  end.

(** [vars()] right after [arguments = {}], [due_date] already rebound. *)
Definition create_task_locals (self : ClickUpClient) (a : create_task_args)
  (due_date : pyval) : dict :=
  [("self", self_value self);
   ("list_id", PStr (ct_list_id a));
   ("name", PStr (ct_name a));
   ("description", of_opt PStr (ct_description a));
   ("priority", of_opt PInt (ct_priority a));
   ("assignees", of_opt PInts (ct_assignees a));
   ("tags", of_opt PStrs (ct_tags a));
   ("status", of_opt PStr (ct_status a));
   ("due_date", due_date);
   ("start_date", of_opt PStr (ct_start_date a));
   ("notify_all", PBool (ct_notify_all a));
   ("arguments", PAlias "arguments")].

Definition create_task (E : Env) (self : ClickUpClient) (a : create_task_args)
  : M pyval :=
  if priority_rejected (ct_priority a) then raise priority_error
  else
    due_date <- lift (convert_due_date E (ct_due_date a)) ;;
    let arguments := dict_update [] (create_task_locals self a due_date) in
    let arguments := dict_pop "self" arguments in
    let arguments := dict_pop "arguments" arguments in
    let arguments := dict_pop "list_id" arguments in
    final_dict <- lift (json_dumps (PDict (drop_none arguments))) ;;
    created_task <-
      post_request E self "list/" final_dict None false [ct_list_id a; "task"] ;;
    build_if_truthy E (build_task E) created_task.

Record update_task_args : Type := {
  ut_task_id : string;
  ut_name : option string;
  ut_description : option string;
  ut_status : option string;
  ut_priority : option Z;
  ut_time_estimate : option Z;
  ut_archived : option bool;
  ut_add_assignees : option (list string);
  ut_remove_assignees : option (list Z)
}.

(** [update_task(task_id)], every other parameter at its default. *)
Definition update_task_defaults (task_id : string) : update_task_args :=
  {| ut_task_id := task_id; ut_name := None; ut_description := None;
     ut_status := None; ut_priority := None; ut_time_estimate := None;
     ut_archived := None; ut_add_assignees := None;
     ut_remove_assignees := None |}.

Definition update_task_locals (self : ClickUpClient) (a : update_task_args)
  : dict :=
  [("self", self_value self);
   ("task_id", PStr (ut_task_id a));
   ("name", of_opt PStr (ut_name a));
   ("description", of_opt PStr (ut_description a));
   ("status", of_opt PStr (ut_status a));
   ("priority", of_opt PInt (ut_priority a));
   ("time_estimate", of_opt PInt (ut_time_estimate a));
   ("archived", of_opt PBool (ut_archived a));
   ("add_assignees", of_opt PStrs (ut_add_assignees a));
   ("remove_assignees", of_opt PInts (ut_remove_assignees a));
   ("arguments", PAlias "arguments")].

(** The [if add_assignees and remove_assignees: ... elif ...] chain. *)
Definition with_assignees (E : Env) (add_assignees remove_assignees : pyval)
  (arguments : dict) : dict :=
  if truthy E add_assignees && truthy E remove_assignees then
    dict_update arguments
      [("assignees", PDict [("add", add_assignees); ("rem", remove_assignees)])]
  else if truthy E add_assignees then
    dict_update arguments [("assignees", PDict [("add", add_assignees)])]
  else if truthy E remove_assignees then
    dict_update arguments [("assignees", PDict [("rem", remove_assignees)])]
  else arguments.

Definition update_task_arguments (E : Env) (self : ClickUpClient)
  (a : update_task_args) : dict :=
  let arguments := dict_update [] (update_task_locals self a) in
  let arguments := dict_pop "self" arguments in
  let arguments := dict_pop "arguments" arguments in
  let arguments := dict_pop "task_id" arguments in
  let arguments := dict_pop "add_assignees" arguments in
  let arguments := dict_pop "remove_assignees" arguments in
  with_assignees E (of_opt PStrs (ut_add_assignees a))
    (of_opt PInts (ut_remove_assignees a)) arguments.

Definition update_task (E : Env) (self : ClickUpClient) (a : update_task_args)
  : M pyval :=
  if priority_rejected (ut_priority a) then raise priority_error
  else
    final_dict <-
      lift (json_dumps (PDict (drop_none (update_task_arguments E self a)))) ;;
    updated_task <- put_request E self "task/" final_dict [ut_task_id a] ;;
    build_if_truthy E (build_task E) updated_task.

Definition delete_task (E : Env) (self : ClickUpClient) (task_id : string)
  : M pyval :=
  deleted_task_status <- delete_request E self "task/" [task_id] ;;
  ret (PBool true).

(** *** Comments *)

Definition get_task_comments (E : Env) (self : ClickUpClient)
  (task_id : string) : M pyval :=
  fetched_comments <- get_request E self "task/" [task_id; "comment"] ;;
  build_then_check E (build_comments E) fetched_comments.

Definition get_list_comments (E : Env) (self : ClickUpClient)
  (list_id : string) : M pyval :=
  fetched_comments <- get_request E self "list/" [list_id; "comment"] ;;
  build_then_check E (build_comments E) fetched_comments.

Definition get_chat_comments (E : Env) (self : ClickUpClient)
  (view_id : string) : M pyval :=
  fetched_comments <- get_request E self "view/" [view_id; "comment"] ;;
  build_then_check E (build_comments E) fetched_comments.

Record update_comment_args : Type := {
  uc_comment_id : string;
  uc_comment_text : option string;
  uc_assignee : option string;
  uc_resolved : option bool
}.

Definition update_comment_locals (self : ClickUpClient)
  (a : update_comment_args) : dict :=
  [("self", self_value self);
   ("comment_id", PStr (uc_comment_id a));
   ("comment_text", of_opt PStr (uc_comment_text a));
   ("assignee", of_opt PStr (uc_assignee a));
   ("resolved", of_opt PBool (uc_resolved a));
   ("arguments", PAlias "arguments")].

Definition update_comment (E : Env) (self : ClickUpClient)
  (a : update_comment_args) : M pyval :=
  let arguments := dict_update [] (update_comment_locals self a) in
  let arguments := dict_pop "self" arguments in
  let arguments := dict_pop "arguments" arguments in
  let arguments := dict_pop "comment_id" arguments in
  final_dict <- lift (json_dumps (PDict (drop_none arguments))) ;;
  updated_comment <- put_request E self "comment/" final_dict [uc_comment_id a] ;;
  if truthy E updated_comment then ret (PBool true) else ret PNone.

Definition delete_comment (E : Env) (self : ClickUpClient)
  (comment_id : string) : M pyval :=
  deleted_comment_status <- delete_request E self "comment/" [comment_id] ;;
  ret (PBool true).

Record create_task_comment_args : Type := {
  cc_task_id : string;
  cc_comment_text : string;
  cc_assignee : option string;
  cc_notify_all : bool
}.

Definition create_task_comment_locals (self : ClickUpClient)
  (a : create_task_comment_args) : dict :=
  [("self", self_value self);
   ("task_id", PStr (cc_task_id a));
   ("comment_text", PStr (cc_comment_text a));
   ("assignee", of_opt PStr (cc_assignee a));
   ("notify_all", PBool (cc_notify_all a));
   ("arguments", PAlias "arguments")].

Definition create_task_comment (E : Env) (self : ClickUpClient)
  (a : create_task_comment_args) : M pyval :=
  let arguments := dict_update [] (create_task_comment_locals self a) in
  let arguments := dict_pop "self" arguments in
  let arguments := dict_pop "arguments" arguments in
  let arguments := dict_pop "task_id" arguments in
  final_dict <- lift (json_dumps (PDict (drop_none arguments))) ;;
  created_comment <-
    post_request E self "task/" final_dict None false [cc_task_id a; "comment"] ;;
  build_then_check E (build_comment E) created_comment.

(** ** The method surface as one type *)

Inductive call : Type :=
| Get_list (list_id : string)
| Get_lists (folder_id : string)
| Create_list (a : create_list_args)
| Get_folder (folder_id : string)
| Get_folders (space_id : string)
| Create_folder (space_id name : string)
| Update_folder (folder_id name : string)
| Delete_folder (folder_id : string)
| Upload_attachment (task_id file_path : string)
| Get_task (task_id : string)
| Get_tasks (list_id : string)
| Create_task (a : create_task_args)
| Update_task (a : update_task_args)
| Delete_task (task_id : string)
| Get_task_comments (task_id : string)
| Get_list_comments (list_id : string)
| Get_chat_comments (view_id : string)
| Update_comment (a : update_comment_args)
| Delete_comment (comment_id : string)
| Create_task_comment (a : create_task_comment_args).

Definition invoke (E : Env) (self : ClickUpClient) (c : call) : M pyval :=
  match c with
  | Get_list i => get_list E self i
  | Get_lists i => get_lists E self i
  | Create_list a => create_list E self a
  | Get_folder i => get_folder E self i
  | Get_folders i => get_folders E self i
  | Create_folder i n => create_folder E self i n
  | Update_folder i n => update_folder E self i n
  | Delete_folder i => delete_folder E self i
  | Upload_attachment i p => upload_attachment E self i p
  | Get_task i => get_task E self i
  | Get_tasks i => get_tasks E self i
  | Create_task a => create_task E self a
  | Update_task a => update_task E self a
  | Delete_task i => delete_task E self i
  | Get_task_comments i => get_task_comments E self i
  | Get_list_comments i => get_list_comments E self i
  | Get_chat_comments i => get_chat_comments E self i
  | Update_comment a => update_comment E self a
  | Delete_comment i => delete_comment E self i
  | Create_task_comment a => create_task_comment E self a
  end.

(** ** Vocabulary of the properties *)

(** [sends P m]: every request [m] performs satisfies [P]. *)
Definition sends {A : Type} (P : request -> Prop) (m : M A) : Prop :=
  forall h, Forall P (snd (m h)).

(** What a primitive does once the response is in hand. *)
Definition get_outcome (r : response) : result pyval :=
  match resp_json r with
  | None => Raise JSONDecodeError
  | Some j =>
      if status_code r =? 429 then
        Raise (ClickupClientError (PStr "Rate limit exceeded")
                                  (PInt (status_code r)))
      else if (status_code r =? 401) || (status_code r =? 400) then
        match getitem j "err" with
        | Return err => Raise (ClickupClientError err (PInt (status_code r)))
        | Raise e => Raise e
        end
      else if ok r then Return j else Return PNone
  end.

Definition post_outcome (r : response) : result pyval :=
  match resp_json r with
  | None => Raise JSONDecodeError
  | Some j =>
      if (status_code r =? 401) || (status_code r =? 400)
         || (status_code r =? 500) then
        match getitem j "err" with
        | Return err => Raise (ClickupClientError err (PInt (status_code r)))
        | Raise e => Raise e
        end
      else if ok r then Return j else Return PNone
  end.

Definition put_outcome (r : response) : result pyval :=
  match resp_json r with
  | None => Raise JSONDecodeError
  | Some j =>
      if (status_code r =? 401) || (status_code r =? 400) then
        match getitem j "err" with
        | Return err => Raise (ClickupClientError err (PInt (status_code r)))
        | Raise e => Raise e
        end
      else if ok r then Return j else Return PNone
  end.

Definition delete_outcome (r : response) : result pyval :=
  if ok r then Return (PInt (status_code r))
  else Raise (NameError "response_json").

(** The path segments each method joins to [API_URL]. *)
Definition endpoint (c : call) : list string :=
  match c with
  | Get_list i => ["list/"; i]
  | Get_lists i => ["folder/"; i]
  | Create_list a => ["folder/"; cl_folder_id a; "list"]
  | Get_folder i => ["folder/"; i]
  | Get_folders i => ["space/"; i; "folder"]
  | Create_folder i _ => ["space/"; i; "folder"]
  | Update_folder i _ => ["folder/"; i]
  | Delete_folder i => ["folder/"; i]
  | Upload_attachment i _ => [("task/" ++ i)%string; "attachment"]
  | Get_task i => ["task/"; i]
  | Get_tasks i => ["list/"; i; "task"]
  | Create_task a => ["list/"; ct_list_id a; "task"]
  | Update_task a => ["task/"; ut_task_id a]
  | Delete_task i => ["task/"; i]
  | Get_task_comments i => ["task/"; i; "comment"]
  | Get_list_comments i => ["list/"; i; "comment"]
  | Get_chat_comments i => ["view/"; i; "comment"]
  | Update_comment a => ["comment/"; uc_comment_id a]
  | Delete_comment i => ["comment/"; i]
  | Create_task_comment a => ["task/"; cc_task_id a; "comment"]
  end.

Definition on_api_root (E : Env) (c : call) (r : request) : Prop :=
  req_url r = url_join E (API_URL :: endpoint c).

(** *** Request bodies

    [honours params d]: in the dict [d], every parameter of [params] whose
    value is [None] is absent as a key and every other one is present with
    its value. *)
Definition honours (params d : dict) : Prop :=
  forall k v, In (k, v) params ->
    (v = PNone -> ~ In k (keys d)) /\ (v <> PNone -> In (k, v) d).

(** The parameters of each method that go into the body, with the values
    they hold when the body is serialised ([due_date] after its
    conversion). *)
Definition create_task_params (a : create_task_args) (due_date : pyval)
  : dict :=
  [("name", PStr (ct_name a));
   ("description", of_opt PStr (ct_description a));
   ("priority", of_opt PInt (ct_priority a));
   ("assignees", of_opt PInts (ct_assignees a));
   ("tags", of_opt PStrs (ct_tags a));
   ("status", of_opt PStr (ct_status a));
   ("due_date", due_date);
   ("start_date", of_opt PStr (ct_start_date a));
   ("notify_all", PBool (ct_notify_all a))].

Definition update_task_params (a : update_task_args) : dict :=
  [("name", of_opt PStr (ut_name a));
   ("description", of_opt PStr (ut_description a));
   ("status", of_opt PStr (ut_status a));
   ("priority", of_opt PInt (ut_priority a));
   ("time_estimate", of_opt PInt (ut_time_estimate a));
   ("archived", of_opt PBool (ut_archived a))].

Definition update_comment_params (a : update_comment_args) : dict :=
  [("comment_text", of_opt PStr (uc_comment_text a));
   ("assignee", of_opt PStr (uc_assignee a));
   ("resolved", of_opt PBool (uc_resolved a))].

Definition create_task_comment_params (a : create_task_comment_args) : dict :=
  [("comment_text", PStr (cc_comment_text a));
   ("assignee", of_opt PStr (cc_assignee a));
   ("notify_all", PBool (cc_notify_all a))].

(** A list argument that is given and not empty. *)
Definition nonempty {A : Type} (o : option (list A)) : Prop :=
  exists x l, o = Some (x :: l).

(** *** A concrete world

    The server answers every request with [r]; no file exists; the helpers
    are simple stand-ins. *)
Definition wrap (cls : string) (v : pyval) : result pyval :=
  Return (PObject cls [("payload", v)]).

Definition sample_url_join (parts : list string) : string :=
  match parts with
  | base :: model :: rest => (base ++ model ++ String.concat "/" rest)%string
  | _ => String.concat "" parts
  end.

Definition sample_env (r : response) : Env :=
  {| url_join := sample_url_join;
     fuzzy_time_to_unix := fun _ => Return (PInt 1767225600000);
     build_list := wrap "SingleList";
     build_lists := wrap "AllLists";
     build_folder := wrap "Folder";
     build_folders := wrap "Folders";
     build_attachment := wrap "Attachment";
     build_task := wrap "Task";
     build_tasks := wrap "Tasks";
     build_comment := wrap "Comment";
     build_comments := wrap "Comments";
     http := fun _ _ => r;
     fs_exists := fun _ => false;
     fs_read := fun _ => None;
     ntpath_basename := fun s => s;
     object_truthy := fun _ _ => true |}.

Definition sample_client : ClickUpClient := init "pk_1234" None.

Definition err_body (msg : string) : pyval := PDict [("err", PStr msg)].

(** *** Requests of a call *)

(** The HTTP method each resource method uses. *)
Definition verb (c : call) : http_method :=
  match c with
  | Get_list _ | Get_lists _ | Get_folder _ | Get_folders _ | Get_task _
  | Get_tasks _ | Get_task_comments _ | Get_list_comments _
  | Get_chat_comments _ => GET
  | Create_list _ | Create_folder _ _ | Upload_attachment _ _
  | Create_task _ | Create_task_comment _ => POST
  | Update_folder _ _ | Update_task _ | Update_comment _ => PUT
  | Delete_folder _ | Delete_task _ | Delete_comment _ => DELETE
  end.

Definition is_upload (c : call) : bool :=
  match c with Upload_attachment _ _ => true | _ => false end.

(** [quiet m]: [m] performs no request. *)
Definition quiet {A : Type} (m : M A) : Prop :=
  forall h, snd (m h) = [].

(** [at_most_one m]: [m] performs one request or none. *)
Definition at_most_one {A : Type} (m : M A) : Prop :=
  forall h, (length (snd (m h)) <= 1)%nat.

(** The value of [if x: return build(x)] and of [y = build(x)] followed by
    [if y: return y], as results. *)
Definition built_if_truthy (E : Env) (build : pyval -> result pyval)
  (fetched : pyval) : result pyval :=
  if truthy E fetched then build fetched else Return PNone.

Definition built_then_checked (E : Env) (build : pyval -> result pyval)
  (fetched : pyval) : result pyval :=
  match build fetched with
  | Return final => if truthy E final then Return final else Return PNone
  | Raise e => Raise e
  end.

(** No value of the dict is [None]. *)
Definition no_null (d : dict) : Prop :=
  forall k v, In (k, v) d -> v <> PNone.

(** A joiner that puts one slash between its parts. *)
Fixpoint strip_slash (s : string) : string :=
  match s with
  | EmptyString => EmptyString
  | String c s' =>
      if String.eqb s' "" then (if String.eqb s "/" then "" else s)
      else String c (strip_slash s')
  end.

Definition slash_url_join (parts : list string) : string :=
  String.concat "/" (map strip_slash parts).

(** A world like [sample_env] in which every path exists and opens. *)
Definition sample_env_with_files (r : response) : Env :=
  {| url_join := slash_url_join;
     fuzzy_time_to_unix := fun _ => Return (PInt 1767225600000);
     build_list := wrap "SingleList";
     build_lists := wrap "AllLists";
     build_folder := wrap "Folder";
     build_folders := wrap "Folders";
     build_attachment := wrap "Attachment";
     build_task := wrap "Task";
     build_tasks := wrap "Tasks";
     build_comment := wrap "Comment";
     build_comments := wrap "Comments";
     http := fun _ _ => r;
     fs_exists := fun _ => true;
     fs_read := fun _ => Some "%PDF-1.4";
     ntpath_basename := fun s => s;
     object_truthy := fun _ _ => true |}.

(** A world like [sample_env] whose date helper fails. *)
Definition sample_env_bad_dates (r : response) : Env :=
  {| url_join := sample_url_join;
     fuzzy_time_to_unix := fun _ => Raise (OtherError "ValueError");
     build_list := wrap "SingleList";
     build_lists := wrap "AllLists";
     build_folder := wrap "Folder";
     build_folders := wrap "Folders";
     build_attachment := wrap "Attachment";
     build_task := wrap "Task";
     build_tasks := wrap "Tasks";
     build_comment := wrap "Comment";
     build_comments := wrap "Comments";
     http := fun _ _ => r;
     fs_exists := fun _ => false;
     fs_read := fun _ => None;
     ntpath_basename := fun s => s;
     object_truthy := fun _ _ => true |}.

(** What the request of a call looks like: its HTTP method, and what it
    carries (nothing for GET and DELETE, form fields and files for the
    upload, the JSON text of a dict otherwise). *)
Definition shaped (c : call) (r : request) : Prop :=
  req_method r = verb c /\
  match verb c with
  | GET | DELETE => req_data r = NoBody /\ req_files r = None
  | POST | PUT =>
      if is_upload c
      then (exists d, req_data r = FormFields d) /\
           (exists fl, req_files r = Some fl)
      else (exists d, req_data r = JsonText (PDict d)) /\ req_files r = None
  end.

(** The headers every request of a call is expected to carry. *)
Definition expected_headers (self : ClickUpClient) (c : call)
  : list (string * string) :=
  if is_upload c then [("Authorization", accesstoken self)]
  else [("Authorization", accesstoken self);
        ("Content-Type", "application/json")].

(** Sequencing of results: the second step runs on the value of the first,
    an exception of the first is the exception of the whole. *)
Definition and_then {A B : Type} (r : result A) (f : A -> result B)
  : result B :=
  match r with
  | Return a => f a
  | Raise e => Raise e
  end.

(** [ends_with e m]: whenever [m] reaches the server, it raises [e]. *)
Definition ends_with {A : Type} (e : exn) (m : M A) : Prop :=
  forall h, snd (m h) = [] \/ fst (m h) = Raise e.

(** * Properties *)

Lemma is_none_true v : is_none v = true <-> v = PNone.
Proof. destruct v; simpl; split; intro H; try reflexivity; discriminate H. Qed.

Lemma is_none_false v : is_none v = false <-> v <> PNone.
Proof.
  destruct v; simpl; split; intro H; try reflexivity; try discriminate H;
    try (intro H'; discriminate H').
  exfalso; apply H; reflexivity.
Qed.

(** ** Running computations *)

Lemma bind_Return {A B : Type} (m : M A) (f : A -> M B) h a out :
  m h = (Return a, out) ->
  bind m f h = (fst (f a (h ++ out)), out ++ snd (f a (h ++ out))).
Proof. intro Hm. unfold bind. rewrite Hm. reflexivity. Qed.

Lemma bind_Raise {A B : Type} (m : M A) (f : A -> M B) h e out :
  m h = (Raise e, out) -> bind m f h = (Raise e, out).
Proof. intro Hm. unfold bind. rewrite Hm. reflexivity. Qed.

Lemma bind_lift_Return {A B : Type} (r : result A) (f : A -> M B) h a :
  r = Return a -> bind (lift r) f h = f a h.
Proof.
  intros ->. unfold bind, lift. simpl. rewrite app_nil_r.
  destruct (f a h); reflexivity.
Qed.

Lemma bind_lift_Raise {A B : Type} (r : result A) (f : A -> M B) h e :
  r = Raise e -> bind (lift r) f h = (Raise e, []).
Proof. intros ->. reflexivity. Qed.

Lemma sends_ret {A : Type} P (a : A) : sends P (ret a).
Proof. intro h. constructor. Qed.

Lemma sends_raise {A : Type} P e : sends P (@raise A e).
Proof. intro h. constructor. Qed.

Lemma sends_lift {A : Type} P (r : result A) : sends P (lift r).
Proof. intro h. constructor. Qed.

Lemma sends_send E P q : P q -> sends P (send E q).
Proof. intros Hq h. simpl. constructor; [exact Hq | constructor]. Qed.

Lemma sends_bind {A B : Type} P (m : M A) (f : A -> M B) :
  sends P m -> (forall a, sends P (f a)) -> sends P (bind m f).
Proof.
  intros Hm Hf h. unfold bind.
  destruct (fst (m h)) as [a | e] eqn:Hres; simpl.
  - apply Forall_app. split; [apply Hm | apply Hf].
  - apply Hm.
Qed.

Lemma sends_if {A : Type} P (b : bool) (m1 m2 : M A) :
  sends P m1 -> sends P m2 -> sends P (if b then m1 else m2).
Proof. destruct b; auto. Qed.

Create HintDb sends.
#[local] Hint Resolve sends_ret sends_raise sends_lift sends_send
  sends_bind sends_if : sends.

(** ** The dispatcher, outcome by outcome *)

Section Dispatcher.
Variable E : Env.
Variable self : ClickUpClient.
Variable model : string.
Variable additionalpath : list string.
Variable h : list request.

Lemma get_request_run :
  get_request E self model additionalpath h =
  (get_outcome (http E h (get_req E self model additionalpath)),
   [get_req E self model additionalpath]).
Proof.
  unfold get_request, get_outcome, bind, send, lift, json_of, raise, ret.
  simpl.
  destruct (resp_json _) as [j |]; simpl; [| reflexivity].
  destruct (status_code _ =? 429); simpl; [reflexivity |].
  rewrite orb_false_r.
  destruct ((status_code _ =? 401) || (status_code _ =? 400)); simpl.
  - destruct (getitem j "err"); reflexivity.
  - destruct (ok _); reflexivity.
Qed.

Lemma post_request_run data upload_files file_upload :
  post_request E self model data upload_files file_upload additionalpath h =
  (post_outcome
     (http E h (post_req E self model data upload_files additionalpath)),
   [post_req E self model data upload_files additionalpath]).
Proof.
  unfold post_request, post_outcome, bind, send, lift, json_of, raise, ret.
  simpl.
  destruct (resp_json _) as [j |]; simpl; [| reflexivity].
  destruct ((status_code _ =? 401) || (status_code _ =? 400)
            || (status_code _ =? 500)); simpl.
  - destruct (getitem j "err"); reflexivity.
  - destruct (ok _); reflexivity.
Qed.

Lemma put_request_run data :
  put_request E self model data additionalpath h =
  (put_outcome (http E h (put_req E self model data additionalpath)),
   [put_req E self model data additionalpath]).
Proof.
  unfold put_request, put_outcome, bind, send, lift, json_of, raise, ret.
  simpl.
  destruct (resp_json _) as [j |]; simpl; [| reflexivity].
  destruct ((status_code _ =? 401) || (status_code _ =? 400)); simpl.
  - destruct (getitem j "err"); reflexivity.
  - destruct (ok _); reflexivity.
Qed.

Lemma delete_request_run :
  delete_request E self model additionalpath h =
  (delete_outcome (http E h (delete_req E self model additionalpath)),
   [delete_req E self model additionalpath]).
Proof.
  unfold delete_request, delete_outcome, bind, send, lift, raise, ret.
  simpl.
  destruct (ok _); reflexivity.
Qed.
End Dispatcher.

(** ** The API root *)

Lemma invoke_ignores_api_url E token u u' c h :
  invoke E {| api_url := u; accesstoken := token |} c h =
  invoke E {| api_url := u'; accesstoken := token |} c h.
Proof. destruct c; reflexivity. Qed.

Lemma post_req_url E self model data upload_files additionalpath :
  req_url (post_req E self model data upload_files additionalpath) =
  url_join E (API_URL :: model :: additionalpath).
Proof. unfold post_req. destruct (has_files upload_files); reflexivity. Qed.

Lemma post_req_data E self model data upload_files additionalpath :
  req_data (post_req E self model data upload_files additionalpath) = data.
Proof. unfold post_req. destruct (has_files upload_files); reflexivity. Qed.

Lemma sends_get_request E self model additionalpath (P : request -> Prop) :
  P (get_req E self model additionalpath) ->
  sends P (get_request E self model additionalpath).
Proof.
  intros HP h. rewrite get_request_run. simpl. constructor; [exact HP | constructor].
Qed.

Lemma sends_post_request E self model data upload_files file_upload
  additionalpath (P : request -> Prop) :
  P (post_req E self model data upload_files additionalpath) ->
  sends P (post_request E self model data upload_files file_upload additionalpath).
Proof.
  intros HP h. rewrite post_request_run. simpl. constructor; [exact HP | constructor].
Qed.

Lemma sends_put_request E self model data additionalpath (P : request -> Prop) :
  P (put_req E self model data additionalpath) ->
  sends P (put_request E self model data additionalpath).
Proof.
  intros HP h. rewrite put_request_run. simpl. constructor; [exact HP | constructor].
Qed.

Lemma sends_delete_request E self model additionalpath (P : request -> Prop) :
  P (delete_req E self model additionalpath) ->
  sends P (delete_request E self model additionalpath).
Proof.
  intros HP h. rewrite delete_request_run. simpl. constructor; [exact HP | constructor].
Qed.

Lemma sends_build_if_truthy E build v (P : request -> Prop) :
  sends P (build_if_truthy E build v).
Proof. unfold build_if_truthy. auto with sends. Qed.

Lemma sends_build_then_check E build v (P : request -> Prop) :
  sends P (build_then_check E build v).
Proof. unfold build_then_check. auto 6 with sends. Qed.

#[local] Hint Resolve sends_build_if_truthy sends_build_then_check : sends.

(** Splits a method into its steps; what remains is the property of each
    request it hands to a primitive. *)
Ltac step_sends :=
  repeat first
    [ apply sends_get_request
    | apply sends_post_request
    | apply sends_put_request
    | apply sends_delete_request
    | solve [auto with sends]
    | apply sends_bind; [| intro]
    | match goal with
      | |- sends _ (if ?b then _ else _) => destruct b
      end ].

Lemma invoke_on_api_root E self c :
  sends (on_api_root E c) (invoke E self c).
Proof.
  destruct c; simpl;
    [ unfold get_list | unfold get_lists | unfold create_list
    | unfold get_folder | unfold get_folders | unfold create_folder
    | unfold update_folder | unfold delete_folder | unfold upload_attachment
    | unfold get_task | unfold get_tasks | unfold create_task
    | unfold update_task | unfold delete_task | unfold get_task_comments
    | unfold get_list_comments | unfold get_chat_comments
    | unfold update_comment | unfold delete_comment
    | unfold create_task_comment ];
    step_sends; unfold on_api_root; try rewrite post_req_url; reflexivity.
Qed.

(** C9. Every request of every resource method has its URL built by
    [url_join] from the module constant [API_URL] and the method's path
    segments; the [api_url] given to the constructor is stored in the client
    and changes neither the result nor the requests of any method. *)
Theorem C9_api_url_stored_never_used :
  forall (E : Env) (token : string) (u u' : string) (c : call)
         (h : list request),
    api_url (init token (Some u)) = u /\
    api_url (init token None) = API_URL /\
    invoke E (init token (Some u)) c h = invoke E (init token (Some u')) c h /\
    invoke E (init token (Some u)) c h = invoke E (init token None) c h /\
    Forall (fun r => req_url r = url_join E (API_URL :: endpoint c))
           (snd (invoke E (init token (Some u)) c h)).
Proof.
  intros E token u u' c h.
  split; [reflexivity |]. split; [reflexivity |].
  split; [apply invoke_ignores_api_url |].
  split; [apply invoke_ignores_api_url |].
  exact (invoke_on_api_root E (init token (Some u)) c h).
Qed.

(** ** Status codes *)

Lemma ok_false_iff r : ok r = false <-> 400 <= status_code r < 600.
Proof. unfold ok. rewrite negb_false_iff, andb_true_iff. lia. Qed.

Lemma ok_true_iff r : ok r = true <-> ~ (400 <= status_code r < 600).
Proof. unfold ok. rewrite negb_true_iff, andb_false_iff. lia. Qed.

(** What the GET primitive does with 429, and what all but DELETE do with
    400 and 401 (POST also with 500), when the body is a JSON object with
    an ["err"] member. *)
(** X9. A 429 answer to a GET whose body is JSON raises the rate-limit
    error with the status code 429, after the one request. *)
Lemma get_request_429 E self model additionalpath h j :
  status_code (http E h (get_req E self model additionalpath)) = 429 ->
  resp_json (http E h (get_req E self model additionalpath)) = Some j ->
  get_request E self model additionalpath h =
  (Raise (ClickupClientError (PStr "Rate limit exceeded") (PInt 429)),
   [get_req E self model additionalpath]).
Proof.
  intros Hs Hj. rewrite get_request_run. unfold get_outcome.
  rewrite Hj, Hs. reflexivity.
Qed.

Lemma get_request_400_401 E self model additionalpath h j err :
  let r := http E h (get_req E self model additionalpath) in
  status_code r = 400 \/ status_code r = 401 ->
  resp_json r = Some j ->
  getitem j "err" = Return err ->
  get_request E self model additionalpath h =
  (Raise (ClickupClientError err (PInt (status_code r))),
   [get_req E self model additionalpath]).
Proof.
  intros r Hs Hj He. rewrite get_request_run. unfold get_outcome.
  fold r. rewrite Hj. destruct Hs as [Hs | Hs]; rewrite Hs; simpl;
    rewrite He; reflexivity.
Qed.

Lemma post_request_400_401_500 E self model data upload_files file_upload
  additionalpath h j err :
  let r := http E h (post_req E self model data upload_files additionalpath) in
  status_code r = 400 \/ status_code r = 401 \/ status_code r = 500 ->
  resp_json r = Some j ->
  getitem j "err" = Return err ->
  post_request E self model data upload_files file_upload additionalpath h =
  (Raise (ClickupClientError err (PInt (status_code r))),
   [post_req E self model data upload_files additionalpath]).
Proof.
  intros r Hs Hj He. rewrite post_request_run. unfold post_outcome.
  fold r. rewrite Hj. destruct Hs as [Hs | [Hs | Hs]]; rewrite Hs; simpl;
    rewrite He; reflexivity.
Qed.

Lemma put_request_400_401 E self model data additionalpath h j err :
  let r := http E h (put_req E self model data additionalpath) in
  status_code r = 400 \/ status_code r = 401 ->
  resp_json r = Some j ->
  getitem j "err" = Return err ->
  put_request E self model data additionalpath h =
  (Raise (ClickupClientError err (PInt (status_code r))),
   [put_req E self model data additionalpath]).
Proof.
  intros r Hs Hj He. rewrite put_request_run. unfold put_outcome.
  fold r. rewrite Hj. destruct Hs as [Hs | Hs]; rewrite Hs; simpl;
    rewrite He; reflexivity.
Qed.

Lemma delete_request_not_ok E self model additionalpath h :
  ok (http E h (delete_req E self model additionalpath)) = false ->
  delete_request E self model additionalpath h =
  (Raise (NameError "response_json"), [delete_req E self model additionalpath]).
Proof.
  intro Hok. rewrite delete_request_run. unfold delete_outcome.
  rewrite Hok. reflexivity.
Qed.

Lemma delete_request_ok E self model additionalpath h :
  ok (http E h (delete_req E self model additionalpath)) = true ->
  delete_request E self model additionalpath h =
  (Return (PInt (status_code (http E h (delete_req E self model additionalpath)))),
   [delete_req E self model additionalpath]).
Proof.
  intro Hok. rewrite delete_request_run. unfold delete_outcome.
  rewrite Hok. reflexivity.
Qed.

(** C2, as the code has it. When the server answers 429 with a JSON body,
    only the GET primitive raises the rate-limit error: POST and PUT return
    [None] without raising, and DELETE raises [NameError]. *)
Theorem C2_status_429_on_post_put_delete :
  forall (E : Env) (self : ClickUpClient) (model : string) (data : body)
         (upload_files : option (list (string * (string * file))))
         (file_upload : bool) (additionalpath : list string)
         (h : list request) (j : pyval),
    (forall q, status_code (http E h q) = 429) ->
    (forall q, resp_json (http E h q) = Some j) ->
    post_request E self model data upload_files file_upload additionalpath h =
      (Return PNone, [post_req E self model data upload_files additionalpath]) /\
    put_request E self model data additionalpath h =
      (Return PNone, [put_req E self model data additionalpath]) /\
    delete_request E self model additionalpath h =
      (Raise (NameError "response_json"),
       [delete_req E self model additionalpath]).
Proof.
  intros E self model data upload_files file_upload additionalpath h j Hs Hj.
  split; [| split].
  - rewrite post_request_run. unfold post_outcome, ok.
    rewrite Hj, Hs. reflexivity.
  - rewrite put_request_run. unfold put_outcome, ok.
    rewrite Hj, Hs. reflexivity.
  - apply delete_request_not_ok. apply ok_false_iff. rewrite Hs. lia.
Qed.

Lemma C2_status_429_on_post_put_delete_witness :
  let E := sample_env {| status_code := 429;
                         resp_json := Some (err_body "Rate limit reached") |} in
  post_request E sample_client "space/" (JsonText (PDict [("name", PStr "Q3")]))
    None false ["790"; "folder"] [] =
    (Return PNone,
     [post_req E sample_client "space/" (JsonText (PDict [("name", PStr "Q3")]))
        None ["790"; "folder"]]) /\
  put_request E sample_client "space/" (JsonText (PDict [("name", PStr "Q3")]))
    ["790"; "folder"] [] =
    (Return PNone,
     [put_req E sample_client "space/" (JsonText (PDict [("name", PStr "Q3")]))
        ["790"; "folder"]]) /\
  delete_request E sample_client "space/" ["790"; "folder"] [] =
    (Raise (NameError "response_json"),
     [delete_req E sample_client "space/" ["790"; "folder"]]).
Proof.
  intro E.
  apply (C2_status_429_on_post_put_delete E sample_client "space/"
           (JsonText (PDict [("name", PStr "Q3")])) None false
           ["790"; "folder"] [] (err_body "Rate limit reached")).
  - intro q. reflexivity.
  - intro q. reflexivity.
Defined.

(** C3, as the code has it. On a 500 answer with a JSON body the PUT
    primitive returns [None] without raising, and on 400, 401 or 500 the
    DELETE primitive raises [NameError], not the client error with the
    server's message. *)
Theorem C3_put_500_and_delete_400_401_500 :
  forall (E : Env) (self : ClickUpClient) (model : string) (data : body)
         (additionalpath : list string) (h : list request) (s : Z) (j : pyval),
    (forall q, status_code (http E h q) = s) ->
    (forall q, resp_json (http E h q) = Some j) ->
    s = 400 \/ s = 401 \/ s = 500 ->
    (s = 500 ->
     put_request E self model data additionalpath h =
       (Return PNone, [put_req E self model data additionalpath])) /\
    delete_request E self model additionalpath h =
      (Raise (NameError "response_json"),
       [delete_req E self model additionalpath]).
Proof.
  intros E self model data additionalpath h s j Hs Hj Hcode. split.
  - intros ->. rewrite put_request_run. unfold put_outcome, ok.
    rewrite Hj, Hs. reflexivity.
  - apply delete_request_not_ok. apply ok_false_iff. rewrite Hs. lia.
Qed.

Lemma C3_put_500_and_delete_400_401_500_witness :
  let E := sample_env {| status_code := 500;
                         resp_json := Some (err_body "Internal error") |} in
  (500 = 500 ->
   put_request E sample_client "folder/" (JsonText (PDict [("name", PStr "Q3")]))
     ["457"] [] =
     (Return PNone,
      [put_req E sample_client "folder/"
         (JsonText (PDict [("name", PStr "Q3")])) ["457"]])) /\
  delete_request E sample_client "folder/" ["457"] [] =
    (Raise (NameError "response_json"),
     [delete_req E sample_client "folder/" ["457"]]).
Proof.
  intro E.
  apply (C3_put_500_and_delete_400_401_500 E sample_client "folder/"
           (JsonText (PDict [("name", PStr "Q3")])) ["457"] [] 500
           (err_body "Internal error")).
  - intro q. reflexivity.
  - intro q. reflexivity.
  - right. right. reflexivity.
Defined.

(** C4, as the code has it. A DELETE whose response is not [ok] (status
    400..599) raises [NameError] for the unbound name [response_json]; no
    [ClickupClientError] is built. *)
Theorem C4_delete_failure_raises_NameError :
  forall (E : Env) (self : ClickUpClient) (model : string)
         (additionalpath : list string) (h : list request),
    400 <= status_code (http E h (delete_req E self model additionalpath)) < 600 ->
    delete_request E self model additionalpath h =
      (Raise (NameError "response_json"),
       [delete_req E self model additionalpath]).
Proof.
  intros E self model additionalpath h Hs.
  apply delete_request_not_ok. apply ok_false_iff. exact Hs.
Qed.

Lemma C4_delete_failure_raises_NameError_witness :
  let E := sample_env {| status_code := 404;
                         resp_json := Some (err_body "Task not found") |} in
  delete_request E sample_client "task/" ["9hz"] [] =
    (Raise (NameError "response_json"),
     [delete_req E sample_client "task/" ["9hz"]]).
Proof.
  intro E.
  apply (C4_delete_failure_raises_NameError E sample_client "task/" ["9hz"] []).
  simpl. lia.
Defined.

(** C5, amended. A GET whose response body is JSON and whose status code is
    in 400..599 other than 400, 401 and 429 neither raises nor returns the
    body: the call returns [None]. *)
Theorem C5_get_unrecognized_error_status_returns_None :
  forall (E : Env) (self : ClickUpClient) (model : string)
         (additionalpath : list string) (h : list request) (j : pyval),
    resp_json (http E h (get_req E self model additionalpath)) = Some j ->
    400 <= status_code (http E h (get_req E self model additionalpath)) < 600 ->
    status_code (http E h (get_req E self model additionalpath)) <> 429 ->
    status_code (http E h (get_req E self model additionalpath)) <> 400 ->
    status_code (http E h (get_req E self model additionalpath)) <> 401 ->
    get_request E self model additionalpath h =
      (Return PNone, [get_req E self model additionalpath]).
Proof.
  intros E self model additionalpath h j Hj Hrange H429 H400 H401.
  rewrite get_request_run. unfold get_outcome. rewrite Hj.
  apply Z.eqb_neq in H429, H400, H401. rewrite H429, H400, H401. simpl.
  apply ok_false_iff in Hrange. rewrite Hrange. reflexivity.
Qed.

Lemma C5_get_unrecognized_error_status_returns_None_witness :
  let E := sample_env {| status_code := 404;
                         resp_json := Some (err_body "Task not found") |} in
  get_request E sample_client "task/" ["9hz"] [] =
    (Return PNone, [get_req E sample_client "task/" ["9hz"]]).
Proof.
  intro E.
  apply (C5_get_unrecognized_error_status_returns_None E sample_client "task/"
           ["9hz"] [] (err_body "Task not found")).
  - reflexivity.
  - simpl. lia.
  - simpl. lia.
  - simpl. lia.
  - simpl. lia.
Defined.

(** C5 as stated fails on both of its conclusions. A 502 whose body is not
    JSON (neither 429, 400, 401 nor 2xx) makes the call raise, because
    [response.json()] runs before any status check; a 300 with a JSON body
    (neither 429, 400, 401 nor 2xx) is [ok], so the parsed body is
    returned. *)
Lemma C5_counterexample :
  get_request (sample_env {| status_code := 502; resp_json := None |})
              sample_client "task/" ["9hz"] [] =
    (Raise JSONDecodeError,
     [get_req (sample_env {| status_code := 502; resp_json := None |})
              sample_client "task/" ["9hz"]]) /\
  get_request (sample_env {| status_code := 300;
                             resp_json := Some (PDict [("id", PStr "9hz")]) |})
              sample_client "task/" ["9hz"] [] =
    (Return (PDict [("id", PStr "9hz")]),
     [get_req (sample_env {| status_code := 300;
                             resp_json := Some (PDict [("id", PStr "9hz")]) |})
              sample_client "task/" ["9hz"]]).
Proof. split; reflexivity. Qed.

(** ** Dicts and bodies *)

Lemma keys_functional (d : dict) k v v' :
  NoDup (keys d) -> In (k, v) d -> In (k, v') d -> v = v'.
Proof.
  induction d as [| [k0 v0] d IH]; simpl; intros Hnd Hin Hin'; [contradiction |].
  inversion Hnd as [| ? ? Hnotin Hnd']; subst.
  destruct Hin as [Heq | Hin], Hin' as [Heq' | Hin'].
  - congruence.
  - inversion Heq; subst. exfalso. apply Hnotin.
    apply (in_map fst) in Hin'. exact Hin'.
  - inversion Heq'; subst. exfalso. apply Hnotin.
    apply (in_map fst) in Hin. exact Hin.
  - apply IH; assumption.
Qed.

Lemma drop_none_honours (params : dict) :
  NoDup (keys params) -> honours params (drop_none params).
Proof.
  intros Hnd k v Hin. split.
  - intros -> Hk. apply in_map_iff in Hk as [[k' v'] [Hfst Hin']].
    simpl in Hfst; subst k'.
    apply filter_In in Hin' as [Hin' Hv']. simpl in Hv'.
    assert (v' = PNone) as -> by (apply (keys_functional params k); assumption).
    discriminate Hv'.
  - intro Hv. apply filter_In. split; [exact Hin |]. simpl.
    apply negb_true_iff, is_none_false. exact Hv.
Qed.

Lemma honours_app (params d extra : dict) :
  honours params d ->
  (forall k, In k (keys params) -> ~ In k (keys extra)) ->
  honours params (d ++ extra).
Proof.
  intros Hh Hfresh k v Hin. destruct (Hh k v Hin) as [Habs Hpres]. split.
  - intros Hv Hk. unfold keys in Hk. rewrite map_app in Hk.
    apply in_app_or in Hk as [Hk | Hk].
    + exact (Habs Hv Hk).
    + apply (Hfresh k); [| exact Hk].
      apply (in_map fst) in Hin. exact Hin.
  - intro Hv. apply in_or_app. left. exact (Hpres Hv).
Qed.

Lemma keys_drop_none_incl (d : dict) k :
  In k (keys (drop_none d)) -> In k (keys d).
Proof.
  intro Hk. apply in_map_iff in Hk as [kv [Hfst Hin]].
  apply filter_In in Hin as [Hin _]. subst k. apply in_map. exact Hin.
Qed.

Lemma serializable_of_opt {A : Type} (f : A -> pyval) (o : option A) :
  (forall a, json_serializable (f a) = true) ->
  json_serializable (of_opt f o) = true.
Proof. intro Hf. destruct o; simpl; [apply Hf | reflexivity]. Qed.

Lemma serializable_PInts l : json_serializable (PInts l) = true.
Proof. unfold PInts. simpl. induction l; simpl; auto. Qed.

Lemma serializable_PStrs l : json_serializable (PStrs l) = true.
Proof. unfold PStrs. simpl. induction l; simpl; auto. Qed.

Lemma serializable_drop_none (d : dict) :
  json_serializable (PDict d) = true ->
  json_serializable (PDict (drop_none d)) = true.
Proof.
  simpl. induction d as [| [k v] d IH]; simpl; [reflexivity |].
  intro H. apply andb_true_iff in H as [Hv Hd].
  destruct (is_none v); simpl; [auto |].
  rewrite Hv. simpl. auto.
Qed.

#[local] Hint Resolve serializable_PInts serializable_PStrs : sends.
#[local] Hint Extern 1 (json_serializable (of_opt _ _) = true) =>
  apply serializable_of_opt; intro; try reflexivity : sends.

Lemma json_dumps_ok v :
  json_serializable v = true -> json_dumps v = Return (JsonText v).
Proof. intro H. unfold json_dumps. rewrite H. reflexivity. Qed.

(** ** What the methods send *)

Lemma snd_bind_quiet {A B : Type} (m : M A) (f : A -> M B) h :
  (forall a h', snd (f a h') = []) -> snd (bind m f h) = snd (m h).
Proof.
  intro Hq. unfold bind. destruct (fst (m h)); simpl; [| reflexivity].
  rewrite Hq. apply app_nil_r.
Qed.

Lemma build_if_truthy_quiet E build v h :
  snd (build_if_truthy E build v h) = [].
Proof. unfold build_if_truthy. destruct (truthy E v); reflexivity. Qed.

Lemma build_then_check_quiet E build v h :
  snd (build_then_check E build v h) = [].
Proof.
  unfold build_then_check, bind, lift. simpl.
  destruct (build v) as [final | e]; simpl; [| reflexivity].
  destruct (truthy E final); reflexivity.
Qed.

Lemma create_list_sent E self a h :
  snd (create_list E self a h) =
  [post_req E self "folder/" (JsonText (PDict (create_list_data a))) None
     [cl_folder_id a; "list"]].
Proof.
  unfold create_list.
  rewrite (bind_lift_Return _ _ _ (JsonText (PDict (create_list_data a)))).
  - rewrite snd_bind_quiet by apply build_if_truthy_quiet.
    rewrite post_request_run. reflexivity.
  - apply json_dumps_ok. unfold create_list_data. simpl.
    repeat (rewrite serializable_of_opt by reflexivity). reflexivity.
Qed.

Lemma create_task_arguments self a due :
  dict_pop "list_id"
    (dict_pop "arguments"
       (dict_pop "self" (dict_update [] (create_task_locals self a due)))) =
  create_task_params a due.
Proof. reflexivity. Qed.

Lemma create_task_rejected E self a h :
  priority_rejected (ct_priority a) = true ->
  create_task E self a h = (Raise priority_error, []).
Proof. intro Hp. unfold create_task. rewrite Hp. reflexivity. Qed.

Lemma create_task_params_serializable a due :
  json_serializable due = true ->
  json_serializable (PDict (drop_none (create_task_params a due))) = true.
Proof.
  intro Hdue. apply serializable_drop_none. unfold create_task_params. simpl.
  rewrite Hdue.
  repeat (rewrite serializable_of_opt
            by (intro; first [reflexivity | apply serializable_PInts
                             | apply serializable_PStrs])).
  reflexivity.
Qed.

Lemma create_task_sent E self a h due :
  priority_rejected (ct_priority a) = false ->
  convert_due_date E (ct_due_date a) = Return due ->
  json_serializable due = true ->
  snd (create_task E self a h) =
  [post_req E self "list/"
     (JsonText (PDict (drop_none (create_task_params a due)))) None
     [ct_list_id a; "task"]].
Proof.
  intros Hp Hdue Hser. unfold create_task. rewrite Hp.
  rewrite (bind_lift_Return _ _ _ due Hdue).
  rewrite (bind_lift_Return _ _ _
             (JsonText (PDict (drop_none (create_task_params a due))))).
  - rewrite snd_bind_quiet by apply build_if_truthy_quiet.
    rewrite post_request_run. reflexivity.
  - apply json_dumps_ok. apply create_task_params_serializable. exact Hser.
Qed.

Lemma update_task_rejected E self a h :
  priority_rejected (ut_priority a) = true ->
  update_task E self a h = (Raise priority_error, []).
Proof. intro Hp. unfold update_task. rewrite Hp. reflexivity. Qed.

Lemma update_task_arguments_eq E self a :
  update_task_arguments E self a =
  with_assignees E (of_opt PStrs (ut_add_assignees a))
    (of_opt PInts (ut_remove_assignees a)) (update_task_params a).
Proof. reflexivity. Qed.

Lemma update_task_serializable E self a :
  json_serializable (PDict (drop_none (update_task_arguments E self a))) = true.
Proof.
  apply serializable_drop_none. rewrite update_task_arguments_eq.
  assert (Hadd : json_serializable (of_opt PStrs (ut_add_assignees a)) = true)
    by (apply serializable_of_opt; apply serializable_PStrs).
  assert (Hrem : json_serializable (of_opt PInts (ut_remove_assignees a)) = true)
    by (apply serializable_of_opt; apply serializable_PInts).
  unfold with_assignees, update_task_params.
  destruct (truthy E (of_opt PStrs (ut_add_assignees a)));
    destruct (truthy E (of_opt PInts (ut_remove_assignees a)));
    simpl; rewrite ?Hadd, ?Hrem;
    repeat (rewrite serializable_of_opt by (intro; reflexivity));
    reflexivity.
Qed.

Lemma update_task_sent E self a h :
  priority_rejected (ut_priority a) = false ->
  snd (update_task E self a h) =
  [put_req E self "task/"
     (JsonText (PDict (drop_none (update_task_arguments E self a))))
     [ut_task_id a]].
Proof.
  intro Hp. unfold update_task. rewrite Hp.
  rewrite (bind_lift_Return _ _ _
             (JsonText (PDict (drop_none (update_task_arguments E self a))))).
  - rewrite snd_bind_quiet by apply build_if_truthy_quiet.
    rewrite put_request_run. reflexivity.
  - apply json_dumps_ok. apply update_task_serializable.
Qed.

Lemma update_comment_sent E self a h :
  snd (update_comment E self a h) =
  [put_req E self "comment/"
     (JsonText (PDict (drop_none (update_comment_params a))))
     [uc_comment_id a]].
Proof.
  unfold update_comment.
  rewrite (bind_lift_Return _ _ _
             (JsonText (PDict (drop_none (update_comment_params a))))).
  - rewrite snd_bind_quiet
      by (intros v h'; destruct (truthy E v); reflexivity).
    rewrite put_request_run. reflexivity.
  - apply json_dumps_ok.
    change (json_serializable
              (PDict (drop_none (update_comment_params a))) = true).
    apply serializable_drop_none. unfold update_comment_params. simpl.
    repeat (rewrite serializable_of_opt by (intro; reflexivity)).
    reflexivity.
Qed.

Lemma create_task_comment_sent E self a h :
  snd (create_task_comment E self a h) =
  [post_req E self "task/"
     (JsonText (PDict (drop_none (create_task_comment_params a)))) None
     [cc_task_id a; "comment"]].
Proof.
  unfold create_task_comment.
  rewrite (bind_lift_Return _ _ _
             (JsonText (PDict (drop_none (create_task_comment_params a))))).
  - rewrite snd_bind_quiet by apply build_then_check_quiet.
    rewrite post_request_run. reflexivity.
  - apply json_dumps_ok.
    change (json_serializable
              (PDict (drop_none (create_task_comment_params a))) = true).
    apply serializable_drop_none. unfold create_task_comment_params. simpl.
    repeat (rewrite serializable_of_opt by (intro; reflexivity)).
    reflexivity.
Qed.

Lemma dict_set_fresh k v (d : dict) :
  ~ In k (keys d) -> dict_set k v d = d ++ [(k, v)].
Proof.
  induction d as [| [k' v'] d IH]; simpl; intro Hk; [reflexivity |].
  destruct (String.eqb k k') eqn:Heq.
  - apply String.eqb_eq in Heq. exfalso. apply Hk. left. symmetry. exact Heq.
  - rewrite IH; [reflexivity |]. intro Hin. apply Hk. right. exact Hin.
Qed.

Lemma truthy_PStrs E o :
  truthy E (of_opt PStrs o) = true <-> nonempty o.
Proof.
  unfold nonempty. destruct o as [[| x l] |]; simpl; split; intro H;
    try discriminate H; try reflexivity;
    try (exists x, l; reflexivity);
    match type of H with
    | exists _, _ => destruct H as (x' & l' & H'); discriminate H'
    end.
Qed.

Lemma truthy_PInts E o :
  truthy E (of_opt PInts o) = true <-> nonempty o.
Proof.
  unfold nonempty. destruct o as [[| x l] |]; simpl; split; intro H;
    try discriminate H; try reflexivity;
    try (exists x, l; reflexivity);
    match type of H with
    | exists _, _ => destruct H as (x' & l' & H'); discriminate H'
    end.
Qed.

(** The [assignees] entry goes last, and only when one of the two lists is
    given and not empty. *)
Lemma with_assignees_fresh E add rem (d : dict) :
  ~ In "assignees" (keys d) ->
  exists extra,
    with_assignees E add rem d = d ++ extra /\
    drop_none extra = extra /\
    (forall k, In k (keys extra) -> k = "assignees") /\
    (In "assignees" (keys extra) <->
     truthy E add = true \/ truthy E rem = true).
Proof.
  intro Hfresh. unfold with_assignees, dict_update.
  destruct (truthy E add), (truthy E rem); simpl;
    try rewrite (dict_set_fresh _ _ _ Hfresh);
    try (eexists; split; [reflexivity |]; split; [reflexivity |]; split;
         [ intros k [Hk | []]; symmetry; exact Hk
         | split; [intros _; auto | intros _; left; reflexivity] ]).
  exists []. rewrite app_nil_r. split; [reflexivity |]. split; [reflexivity |].
  split; [intros k [] |]. split; [intros [] | intros [H | H]; discriminate H].
Qed.

Ltac distinct_keys :=
  unfold keys; simpl;
  repeat (constructor; [simpl; intuition discriminate |]); constructor.

Ltac not_a_key :=
  simpl; intuition discriminate.

(** ** Priorities *)

Lemma priority_rejected_iff p :
  priority_rejected (Some p) = true <-> p <> 0 /\ ~ (1 <= p <= 3).
Proof.
  unfold priority_rejected, in_range.
  rewrite andb_true_iff, !negb_true_iff, andb_false_iff.
  rewrite Z.eqb_neq, Z.leb_gt, Z.ltb_ge. lia.
Qed.

Lemma priority_None_accepted : priority_rejected None = false.
Proof. reflexivity. Qed.

(** Zero is not [None] and lies outside 1..4, yet the test lets it pass:
    [priority and ...] is false for 0. *)
Lemma priority_0_accepted : priority_rejected (Some 0) = false.
Proof. reflexivity. Qed.

(** C1, as the code has it. Priority 4, the documented "Low", is rejected by
    [create_task] and by [update_task]: the test is [range(1, 4)], which
    ends at 3. The error is raised before any request. *)
Theorem C1_priority_4_rejected :
  forall (E : Env) (self : ClickUpClient) (a : create_task_args)
         (u : update_task_args) (h : list request),
    ct_priority a = Some 4 ->
    ut_priority u = Some 4 ->
    create_task E self a h = (Raise priority_error, []) /\
    update_task E self u h = (Raise priority_error, []).
Proof.
  intros E self a u h Ha Hu. split.
  - apply create_task_rejected. rewrite Ha. reflexivity.
  - apply update_task_rejected. rewrite Hu. reflexivity.
Qed.

Lemma C1_priority_4_rejected_witness :
  let E := sample_env {| status_code := 200; resp_json := Some (PDict []) |} in
  let a :=
    {| ct_list_id := "124"; ct_name := "Write report"; ct_description := None;
       ct_priority := Some 4; ct_assignees := None; ct_tags := None;
       ct_status := None; ct_due_date := None; ct_start_date := None;
       ct_notify_all := true |} in
  let u :=
    {| ut_task_id := "9hz"; ut_name := None; ut_description := None;
       ut_status := None; ut_priority := Some 4; ut_time_estimate := None;
       ut_archived := None; ut_add_assignees := None;
       ut_remove_assignees := None |} in
  create_task E sample_client a [] = (Raise priority_error, []) /\
  update_task E sample_client u [] = (Raise priority_error, []).
Proof.
  intros E a u.
  apply (C1_priority_4_rejected E sample_client a u []); reflexivity.
Defined.

(** X19. The part of C1 the code does meet: a priority that is neither 0 nor in
    1..3 raises before any request, and with a priority in 1..3 both
    methods perform their request. *)
Lemma priority_check_before_request E self a u h p :
  p <> 0 -> ~ (1 <= p <= 3) ->
  ct_priority a = Some p -> ut_priority u = Some p ->
  create_task E self a h = (Raise priority_error, []) /\
  update_task E self u h = (Raise priority_error, []).
Proof.
  intros H0 Hr Ha Hu. split.
  - apply create_task_rejected. rewrite Ha. apply priority_rejected_iff. auto.
  - apply update_task_rejected. rewrite Hu. apply priority_rejected_iff. auto.
Qed.

Lemma priority_1_to_3_accepted p :
  1 <= p <= 3 -> priority_rejected (Some p) = false.
Proof.
  intro Hp. destruct (priority_rejected (Some p)) eqn:Hrej; [| reflexivity].
  apply priority_rejected_iff in Hrej. lia.
Qed.

(** X20. With a priority of 1, 2 or 3 the check passes: [create_task]
    (no [due_date] given) performs its POST and [update_task] its PUT. *)
Lemma priority_1_to_3_proceeds E self a u h p :
  1 <= p <= 3 ->
  ct_priority a = Some p -> ct_due_date a = None ->
  ut_priority u = Some p ->
  (exists q, snd (create_task E self a h) = [q] /\ req_method q = POST) /\
  (exists q, snd (update_task E self u h) = [q] /\ req_method q = PUT).
Proof.
  intros Hp Ha Hdue Hu. split; eexists; split.
  - apply (create_task_sent E self a h PNone).
    + rewrite Ha. apply priority_1_to_3_accepted. exact Hp.
    + rewrite Hdue. reflexivity.
    + reflexivity.
  - reflexivity.
  - apply update_task_sent. rewrite Hu.
    apply priority_1_to_3_accepted. exact Hp.
  - reflexivity.
Qed.

(** ** Request bodies *)

(** C7, as the code has it. [create_list] always sends the four keys
    [name], [content], [due_date] and [status], a [None] argument included
    (as JSON null), and never sends [priority]. *)
Theorem C7_create_list_body :
  forall (E : Env) (self : ClickUpClient) (a : create_list_args)
         (h : list request),
    snd (create_list E self a h) =
      [post_req E self "folder/"
         (JsonText (PDict [("name", of_opt PStr (cl_name a));
                           ("content", of_opt PStr (cl_content a));
                           ("due_date", of_opt PStr (cl_due_date a));
                           ("status", of_opt PStr (cl_status a))]))
         None [cl_folder_id a; "list"]] /\
    ~ In "priority" (keys (create_list_data a)).
Proof.
  intros E self a h. split.
  - apply create_list_sent.
  - not_a_key.
Qed.

(** C8, as the code has it. [create_task] passes [start_date] to the body
    as it was given: only [due_date] goes through [fuzzy_time_to_unix]. *)
Theorem C8_start_date_not_converted :
  forall (E : Env) (self : ClickUpClient) (list_id name start_date : string)
         (h : list request),
    snd (create_task E self
           {| ct_list_id := list_id; ct_name := name; ct_description := None;
              ct_priority := None; ct_assignees := None; ct_tags := None;
              ct_status := None; ct_due_date := None;
              ct_start_date := Some start_date; ct_notify_all := true |} h) =
      [post_req E self "list/"
         (JsonText (PDict [("name", PStr name);
                           ("start_date", PStr start_date);
                           ("notify_all", PBool true)]))
         None [list_id; "task"]].
Proof.
  intros E self list_id name start_date h.
  set (a := {| ct_list_id := list_id; ct_name := name; ct_description := None;
               ct_priority := None; ct_assignees := None; ct_tags := None;
               ct_status := None; ct_due_date := None;
               ct_start_date := Some start_date; ct_notify_all := true |}).
  rewrite (create_task_sent E self a h PNone) by reflexivity.
  reflexivity.
Qed.

(** X22. The part of C8 the code does meet: a non-empty [due_date] is replaced
    by what [fuzzy_time_to_unix] returns for it. *)
Lemma due_date_converted E self a h s v :
  priority_rejected (ct_priority a) = false ->
  ct_due_date a = Some s -> s <> "" ->
  fuzzy_time_to_unix E s = Return v ->
  v <> PNone -> json_serializable v = true ->
  exists d,
    snd (create_task E self a h) =
      [post_req E self "list/" (JsonText (PDict d)) None
         [ct_list_id a; "task"]] /\
    In ("due_date", v) d.
Proof.
  intros Hp Hs Hne Hf Hv Hser.
  exists (drop_none (create_task_params a v)). split.
  - apply create_task_sent; [exact Hp | | exact Hser].
    rewrite Hs. simpl. apply String.eqb_neq in Hne. rewrite Hne. exact Hf.
  - apply (drop_none_honours (create_task_params a v)); [distinct_keys | | exact Hv].
    unfold create_task_params. simpl. tauto.
Qed.

(** C10. When [file_path] does not exist, [upload_attachment] returns
    [None]: nothing is raised and no request is performed. *)
Theorem C10_upload_missing_file_returns_None :
  forall (E : Env) (self : ClickUpClient) (task_id file_path : string)
         (h : list request),
    fs_exists E file_path = false ->
    upload_attachment E self task_id file_path h = (Return PNone, []).
Proof.
  intros E self task_id file_path h Hmissing.
  unfold upload_attachment. rewrite Hmissing. reflexivity.
Qed.

Lemma C10_upload_missing_file_returns_None_witness :
  upload_attachment
    (sample_env {| status_code := 200; resp_json := Some (PDict []) |})
    sample_client "9hz" "/tmp/missing.pdf" [] = (Return PNone, []).
Proof.
  apply (C10_upload_missing_file_returns_None
           (sample_env {| status_code := 200; resp_json := Some (PDict []) |})
           sample_client "9hz" "/tmp/missing.pdf" []).
  reflexivity.
Defined.

Lemma update_task_body E self a :
  exists extra,
    drop_none (update_task_arguments E self a) =
      drop_none (update_task_params a) ++ extra /\
    (forall k, In k (keys extra) -> k = "assignees") /\
    (In "assignees" (keys extra) <->
     nonempty (ut_add_assignees a) \/ nonempty (ut_remove_assignees a)).
Proof.
  rewrite update_task_arguments_eq.
  destruct (with_assignees_fresh E (of_opt PStrs (ut_add_assignees a))
              (of_opt PInts (ut_remove_assignees a)) (update_task_params a))
    as (extra & Heq & Hkeep & Honly & Hiff); [not_a_key |].
  exists extra. rewrite Heq. unfold drop_none at 1. rewrite filter_app.
  fold (drop_none (update_task_params a)). fold (drop_none extra).
  rewrite Hkeep. split; [reflexivity |]. split; [exact Honly |].
  rewrite Hiff, truthy_PStrs, truthy_PInts. tauto.
Qed.

Lemma keys_app (d d' : dict) : keys (d ++ d') = keys d ++ keys d'.
Proof. unfold keys. apply map_app. Qed.

(** C6, amended. In the body each of the four methods sends, every body
    parameter that is [None] when the body is serialised is absent and every
    other one is present with its value. The body parameters are the
    parameters other than the id that goes into the path, which is never a
    key, and other than [add_assignees] and [remove_assignees] of
    [update_task], which are never keys either: an [assignees] key is
    present exactly when one of the two is a non-empty list. The value of
    [due_date] in [create_task] is the one after its conversion. *)
Theorem C6_body_parameters :
  forall (E : Env) (self : ClickUpClient) (h : list request),
    (forall a due,
        priority_rejected (ct_priority a) = false ->
        convert_due_date E (ct_due_date a) = Return due ->
        json_serializable due = true ->
        exists d,
          snd (create_task E self a h) =
            [post_req E self "list/" (JsonText (PDict d)) None
               [ct_list_id a; "task"]] /\
          honours (create_task_params a due) d /\
          ~ In "list_id" (keys d)) /\
    (forall a,
        priority_rejected (ut_priority a) = false ->
        exists d,
          snd (update_task E self a h) =
            [put_req E self "task/" (JsonText (PDict d)) [ut_task_id a]] /\
          honours (update_task_params a) d /\
          ~ In "task_id" (keys d) /\
          ~ In "add_assignees" (keys d) /\
          ~ In "remove_assignees" (keys d) /\
          (In "assignees" (keys d) <->
           nonempty (ut_add_assignees a) \/ nonempty (ut_remove_assignees a))) /\
    (forall a,
        exists d,
          snd (update_comment E self a h) =
            [put_req E self "comment/" (JsonText (PDict d)) [uc_comment_id a]] /\
          honours (update_comment_params a) d /\
          ~ In "comment_id" (keys d)) /\
    (forall a,
        exists d,
          snd (create_task_comment E self a h) =
            [post_req E self "task/" (JsonText (PDict d)) None
               [cc_task_id a; "comment"]] /\
          honours (create_task_comment_params a) d /\
          ~ In "task_id" (keys d)).
Proof.
  intros E self h. split; [| split; [| split]].
  - intros a due Hp Hdue Hser.
    exists (drop_none (create_task_params a due)). split; [| split].
    + apply create_task_sent; assumption.
    + apply drop_none_honours. distinct_keys.
    + intro Hk. apply keys_drop_none_incl in Hk. revert Hk. not_a_key.
  - intros a Hp.
    destruct (update_task_body E self a) as (extra & Heq & Honly & Hiff).
    exists (drop_none (update_task_params a) ++ extra).
    assert (Hother : forall k, k <> "assignees" ->
                       ~ In k (keys (update_task_params a)) ->
                       ~ In k (keys (drop_none (update_task_params a) ++ extra))).
    { intros k Hne Hnot Hk. rewrite keys_app in Hk.
      apply in_app_or in Hk as [Hk | Hk].
      - apply Hnot. apply keys_drop_none_incl. exact Hk.
      - apply Hne. apply Honly. exact Hk. }
    split; [| split; [| split; [| split; [| split]]]].
    + rewrite <- Heq. apply update_task_sent. exact Hp.
    + apply honours_app; [apply drop_none_honours; distinct_keys |].
      intros k Hk Hk'. apply Honly in Hk'. subst k. revert Hk. not_a_key.
    + apply Hother; [discriminate | not_a_key].
    + apply Hother; [discriminate | not_a_key].
    + apply Hother; [discriminate | not_a_key].
    + rewrite <- Hiff. rewrite keys_app. split.
      * intro Hk. apply in_app_or in Hk as [Hk | Hk]; [| exact Hk].
        apply keys_drop_none_incl in Hk. revert Hk. not_a_key.
      * intro Hk. apply in_or_app. right. exact Hk.
  - intro a. exists (drop_none (update_comment_params a)). split; [| split].
    + apply update_comment_sent.
    + apply drop_none_honours. distinct_keys.
    + intro Hk. apply keys_drop_none_incl in Hk. revert Hk. not_a_key.
  - intro a. exists (drop_none (create_task_comment_params a)).
    split; [| split].
    + apply create_task_comment_sent.
    + apply drop_none_honours. distinct_keys.
    + intro Hk. apply keys_drop_none_incl in Hk. revert Hk. not_a_key.
Qed.

Lemma C6_body_parameters_witness :
  let E := sample_env {| status_code := 200; resp_json := Some (PDict []) |} in
  let a :=
    {| ct_list_id := "124"; ct_name := "Write report"; ct_description := None;
       ct_priority := Some 2; ct_assignees := None; ct_tags := None;
       ct_status := None; ct_due_date := Some "tomorrow";
       ct_start_date := None; ct_notify_all := true |} in
  let u :=
    {| ut_task_id := "9hz"; ut_name := Some "Write report";
       ut_description := None; ut_status := None; ut_priority := Some 3;
       ut_time_estimate := None; ut_archived := None;
       ut_add_assignees := Some ["183"]; ut_remove_assignees := None |} in
  (exists d,
      snd (create_task E sample_client a []) =
        [post_req E sample_client "list/" (JsonText (PDict d)) None
           ["124"; "task"]] /\
      honours (create_task_params a (PInt 1767225600000)) d /\
      ~ In "list_id" (keys d)) /\
  (exists d,
      snd (update_task E sample_client u []) =
        [put_req E sample_client "task/" (JsonText (PDict d)) ["9hz"]] /\
      honours (update_task_params u) d /\
      ~ In "task_id" (keys d) /\
      ~ In "add_assignees" (keys d) /\
      ~ In "remove_assignees" (keys d) /\
      (In "assignees" (keys d) <->
       nonempty (ut_add_assignees u) \/ nonempty (ut_remove_assignees u))).
Proof.
  intros E a u.
  destruct (C6_body_parameters E sample_client []) as (Hct & Hut & _ & _).
  split.
  - apply (Hct a (PInt 1767225600000)); reflexivity.
  - apply (Hut u). reflexivity.
Defined.

(** C6 as stated fails for [update_task]: [add_assignees] passed as the
    list ["183"] is not a key of the body (it is sent under [assignees]),
    and passed as the empty list it leaves no trace in the body at all. *)
Lemma C6_counterexample :
  let E := sample_env {| status_code := 200; resp_json := Some (PDict []) |} in
  let u (add : list string) :=
    {| ut_task_id := "9hz"; ut_name := None; ut_description := None;
       ut_status := None; ut_priority := None; ut_time_estimate := None;
       ut_archived := None; ut_add_assignees := Some add;
       ut_remove_assignees := None |} in
  snd (update_task E sample_client (u ["183"]) []) =
    [put_req E sample_client "task/"
       (JsonText (PDict [("assignees", PDict [("add", PList [PStr "183"])])]))
       ["9hz"]] /\
  ~ In "add_assignees"
       (keys [("assignees", PDict [("add", PList [PStr "183"])])]) /\
  snd (update_task E sample_client (u []) []) =
    [put_req E sample_client "task/" (JsonText (PDict [])) ["9hz"]].
Proof.
  intros E u. split; [reflexivity |]. split; [not_a_key | reflexivity].
Qed.

(** ** Sample runs *)

Example get_task_run :
  get_task (sample_env {| status_code := 200;
                          resp_json := Some (PDict [("id", PStr "9hz")]) |})
           sample_client "9hz" [] =
  (Return (PObject "Task" [("payload", PDict [("id", PStr "9hz")])]),
   [{| req_method := GET;
       req_url := "https://api.clickup.com/api/v2/task/9hz";
       req_headers := [("Authorization", "pk_1234");
                       ("Content-Type", "application/json")];
       req_data := NoBody;
       req_files := None |}]).
Proof. reflexivity. Qed.

Example create_task_run :
  create_task (sample_env {| status_code := 200;
                             resp_json := Some (PDict [("id", PStr "9hz")]) |})
              sample_client
              {| ct_list_id := "124"; ct_name := "Write report";
                 ct_description := None; ct_priority := Some 2;
                 ct_assignees := Some [183]; ct_tags := None;
                 ct_status := None; ct_due_date := Some "tomorrow";
                 ct_start_date := Some "today"; ct_notify_all := true |} [] =
  (Return (PObject "Task" [("payload", PDict [("id", PStr "9hz")])]),
   [{| req_method := POST;
       req_url := "https://api.clickup.com/api/v2/list/124/task";
       req_headers := [("Authorization", "pk_1234");
                       ("Content-Type", "application/json")];
       req_data := JsonText (PDict [("name", PStr "Write report");
                                    ("priority", PInt 2);
                                    ("assignees", PList [PInt 183]);
                                    ("due_date", PInt 1767225600000);
                                    ("start_date", PStr "today");
                                    ("notify_all", PBool true)]);
       req_files := None |}]).
Proof. reflexivity. Qed.

Example create_list_run :
  snd (create_list (sample_env {| status_code := 200;
                                  resp_json := Some (PDict []) |})
                   sample_client
                   {| cl_folder_id := "457"; cl_name := Some "Sprint";
                      cl_content := Some "c";
                      cl_due_date := Some "1700000000000";
                      cl_priority := Some 1; cl_status := Some "red" |} []) =
  [{| req_method := POST;
      req_url := "https://api.clickup.com/api/v2/folder/457/list";
      req_headers := [("Authorization", "pk_1234");
                      ("Content-Type", "application/json")];
      req_data := JsonText (PDict [("name", PStr "Sprint");
                                   ("content", PStr "c");
                                   ("due_date", PStr "1700000000000");
                                   ("status", PStr "red")]);
      req_files := None |}].
Proof. reflexivity. Qed.

Example delete_task_run :
  delete_task (sample_env {| status_code := 204; resp_json := None |})
              sample_client "9hz" [] =
  (Return (PBool true),
   [{| req_method := DELETE;
       req_url := "https://api.clickup.com/api/v2/task/9hz";
       req_headers := [("Authorization", "pk_1234");
                       ("Content-Type", "application/json")];
       req_data := NoBody;
       req_files := None |}]).
Proof. reflexivity. Qed.

(** * Further properties of the client *)

(** ** How many requests a method performs *)

Lemma quiet_ret {A : Type} (a : A) : quiet (ret a).
Proof. intro h. reflexivity. Qed.

Lemma quiet_raise {A : Type} e : quiet (@raise A e).
Proof. intro h. reflexivity. Qed.

Lemma quiet_lift {A : Type} (r : result A) : quiet (lift r).
Proof. intro h. reflexivity. Qed.

Lemma quiet_bind {A B : Type} (m : M A) (f : A -> M B) :
  quiet m -> (forall a, quiet (f a)) -> quiet (bind m f).
Proof.
  intros Hm Hf h. unfold bind. destruct (fst (m h)); simpl.
  - rewrite Hm, Hf. reflexivity.
  - apply Hm.
Qed.

Lemma quiet_build_if_truthy E build v : quiet (build_if_truthy E build v).
Proof. intro h. apply build_if_truthy_quiet. Qed.

Lemma quiet_build_then_check E build v : quiet (build_then_check E build v).
Proof. intro h. apply build_then_check_quiet. Qed.

Lemma at_most_one_quiet {A : Type} (m : M A) : quiet m -> at_most_one m.
Proof. intros Hm h. rewrite Hm. simpl. lia. Qed.

Lemma at_most_one_then_quiet {A B : Type} (m : M A) (f : A -> M B) :
  at_most_one m -> (forall a, quiet (f a)) -> at_most_one (bind m f).
Proof.
  intros Hm Hf h. rewrite snd_bind_quiet; [apply Hm |].
  intros a h'. apply Hf.
Qed.

Lemma at_most_one_after_quiet {A B : Type} (m : M A) (f : A -> M B) :
  quiet m -> (forall a, at_most_one (f a)) -> at_most_one (bind m f).
Proof.
  intros Hm Hf h. unfold bind. destruct (fst (m h)); simpl.
  - rewrite Hm. simpl. apply Hf.
  - rewrite Hm. simpl. lia.
Qed.

Lemma at_most_one_get_request E self model additionalpath :
  at_most_one (get_request E self model additionalpath).
Proof. intro h. rewrite get_request_run. simpl. lia. Qed.

Lemma at_most_one_post_request E self model data upload_files file_upload
  additionalpath :
  at_most_one
    (post_request E self model data upload_files file_upload additionalpath).
Proof. intro h. rewrite post_request_run. simpl. lia. Qed.

Lemma at_most_one_put_request E self model data additionalpath :
  at_most_one (put_request E self model data additionalpath).
Proof. intro h. rewrite put_request_run. simpl. lia. Qed.

Lemma at_most_one_delete_request E self model additionalpath :
  at_most_one (delete_request E self model additionalpath).
Proof. intro h. rewrite delete_request_run. simpl. lia. Qed.

Create HintDb quiet.
#[local] Hint Resolve quiet_ret quiet_raise quiet_lift quiet_build_if_truthy
  quiet_build_then_check : quiet.

Ltac step_quiet :=
  repeat first
    [ solve [auto with quiet]
    | apply quiet_bind; [| intro]
    | match goal with
      | |- quiet (if ?b then _ else _) => destruct b
      end ].

Ltac step_at_most_one :=
  repeat first
    [ apply at_most_one_get_request
    | apply at_most_one_post_request
    | apply at_most_one_put_request
    | apply at_most_one_delete_request
    | apply at_most_one_quiet; solve [step_quiet]
    | apply at_most_one_then_quiet;
      [| intro; solve [step_quiet] ]
    | apply at_most_one_after_quiet; [solve [step_quiet] | intro]
    | match goal with
      | |- at_most_one (if ?b then _ else _) => destruct b
      end ].

(** X1. A call to a resource method performs one HTTP request or none: nothing
    is retried and no second request follows the first. *)
Theorem one_request_per_call :
  forall (E : Env) (self : ClickUpClient) (c : call) (h : list request),
    (length (snd (invoke E self c h)) <= 1)%nat.
Proof.
  intros E self c.
  change (at_most_one (invoke E self c)).
  destruct c; simpl;
    [ unfold get_list | unfold get_lists | unfold create_list
    | unfold get_folder | unfold get_folders | unfold create_folder
    | unfold update_folder | unfold delete_folder | unfold upload_attachment
    | unfold get_task | unfold get_tasks | unfold create_task
    | unfold update_task | unfold delete_task | unfold get_task_comments
    | unfold get_list_comments | unfold get_chat_comments
    | unfold update_comment | unfold delete_comment
    | unfold create_task_comment ];
    step_at_most_one.
Qed.

(** ** The shape of the requests *)

Lemma sends_bind_lift {A B : Type} P (r : result A) (f : A -> M B) :
  (forall a, r = Return a -> sends P (f a)) -> sends P (bind (lift r) f).
Proof.
  intros Hf h. destruct r as [a | e].
  - rewrite (bind_lift_Return _ _ _ a eq_refl). apply Hf. reflexivity.
  - simpl. constructor.
Qed.

Lemma json_dumps_inv v b : json_dumps v = Return b -> b = JsonText v.
Proof.
  unfold json_dumps. destruct (json_serializable v); intro H;
    [inversion H; reflexivity | discriminate H].
Qed.

(** Like [step_sends], keeping what is known of the values computed before
    the request. *)
Ltac step_sends_knowing :=
  repeat first
    [ apply sends_get_request
    | apply sends_post_request
    | apply sends_put_request
    | apply sends_delete_request
    | solve [auto with sends]
    | apply sends_bind_lift; intros ? ?
    | apply sends_bind; [| intro]
    | match goal with
      | |- sends _ (if ?b then _ else _) => destruct b
      end ];
  repeat match goal with
         | H : json_dumps _ = Return _ |- _ => apply json_dumps_inv in H; subst
         end.

Ltac unfold_method :=
  simpl;
  first
    [ progress unfold get_list | progress unfold get_lists
    | progress unfold create_list | progress unfold get_folder
    | progress unfold get_folders | progress unfold create_folder
    | progress unfold update_folder | progress unfold delete_folder
    | progress unfold upload_attachment | progress unfold get_task
    | progress unfold get_tasks | progress unfold create_task
    | progress unfold update_task | progress unfold delete_task
    | progress unfold get_task_comments | progress unfold get_list_comments
    | progress unfold get_chat_comments | progress unfold update_comment
    | progress unfold delete_comment | progress unfold create_task_comment ].

(** X2. Every request carries the access token in its [Authorization] header,
    and the JSON content type too, unless it is the upload of an attachment,
    whose only header is [Authorization]. *)
Theorem requests_carry_token :
  forall (E : Env) (self : ClickUpClient) (c : call) (h : list request),
    Forall (fun r => req_headers r = expected_headers self c)
           (snd (invoke E self c h)).
Proof.
  intros E self c.
  change (sends (fun r => req_headers r = expected_headers self c)
                (invoke E self c)).
  destruct c; unfold_method; step_sends_knowing; reflexivity.
Qed.

(** X3. Every request of a call uses the HTTP method of its operation (GET to
    fetch, POST to create or upload, PUT to update, DELETE to delete); GET
    and DELETE requests carry no body and no file, the upload carries form
    fields and files, and every other request carries the JSON text of a
    dict and no file. *)
Theorem requests_shaped :
  forall (E : Env) (self : ClickUpClient) (c : call) (h : list request),
    Forall (shaped c) (snd (invoke E self c h)).
Proof.
  intros E self c.
  change (sends (shaped c) (invoke E self c)).
  destruct c; unfold_method; step_sends_knowing;
    unfold shaped; simpl; repeat split; eauto.
Qed.

Lemma drop_none_no_null (d : dict) : no_null (drop_none d).
Proof.
  intros k v Hin. apply filter_In in Hin as [_ Hv]. simpl in Hv.
  apply is_none_false. apply negb_true_iff. exact Hv.
Qed.

(** X4. The bodies of [create_task], [update_task], [update_comment] and
    [create_task_comment] are JSON dicts none of whose members is null. *)
Theorem filtered_bodies_have_no_null :
  forall (E : Env) (self : ClickUpClient) (h : list request),
    (forall a,
        Forall (fun r => exists d, req_data r = JsonText (PDict d) /\ no_null d)
               (snd (create_task E self a h))) /\
    (forall a,
        Forall (fun r => exists d, req_data r = JsonText (PDict d) /\ no_null d)
               (snd (update_task E self a h))) /\
    (forall a,
        Forall (fun r => exists d, req_data r = JsonText (PDict d) /\ no_null d)
               (snd (update_comment E self a h))) /\
    (forall a,
        Forall (fun r => exists d, req_data r = JsonText (PDict d) /\ no_null d)
               (snd (create_task_comment E self a h))).
Proof.
  intros E self h.
  assert (Hstep : forall (m : M pyval),
             sends (fun r => exists d, req_data r = JsonText (PDict d) /\
                                       no_null d) m ->
             Forall (fun r => exists d, req_data r = JsonText (PDict d) /\
                                        no_null d) (snd (m h)))
    by (intros m Hm; apply Hm).
  repeat split; intro a; apply Hstep.
  - unfold create_task. step_sends_knowing.
    eexists. split; [reflexivity | apply drop_none_no_null].
  - unfold update_task. step_sends_knowing.
    eexists. split; [reflexivity | apply drop_none_no_null].
  - unfold update_comment. step_sends_knowing.
    eexists. split; [reflexivity | apply drop_none_no_null].
  - unfold create_task_comment. step_sends_knowing.
    eexists. split; [reflexivity | apply drop_none_no_null].
Qed.

(** ** Outcomes of the primitives by status code *)

Lemma ok_not_special r s :
  ok r = true -> 400 <= s < 600 -> (status_code r =? s) = false.
Proof. intros Hok Hs. apply ok_true_iff in Hok. apply Z.eqb_neq. lia. Qed.

Lemma get_outcome_ok r j :
  resp_json r = Some j -> ok r = true -> get_outcome r = Return j.
Proof.
  intros Hj Hok. unfold get_outcome. rewrite Hj.
  rewrite !(ok_not_special r) by (assumption || lia). simpl.
  rewrite Hok. reflexivity.
Qed.

Lemma post_outcome_ok r j :
  resp_json r = Some j -> ok r = true -> post_outcome r = Return j.
Proof.
  intros Hj Hok. unfold post_outcome. rewrite Hj.
  rewrite !(ok_not_special r) by (assumption || lia). simpl.
  rewrite Hok. reflexivity.
Qed.

Lemma put_outcome_ok r j :
  resp_json r = Some j -> ok r = true -> put_outcome r = Return j.
Proof.
  intros Hj Hok. unfold put_outcome. rewrite Hj.
  rewrite !(ok_not_special r) by (assumption || lia). simpl.
  rewrite Hok. reflexivity.
Qed.

Lemma get_outcome_unhandled r j :
  resp_json r = Some j -> ok r = false ->
  status_code r <> 429 -> status_code r <> 400 -> status_code r <> 401 ->
  get_outcome r = Return PNone.
Proof.
  intros Hj Hok H429 H400 H401. unfold get_outcome. rewrite Hj.
  apply Z.eqb_neq in H429, H400, H401. rewrite H429, H400, H401. simpl.
  rewrite Hok. reflexivity.
Qed.

Lemma post_outcome_unhandled r j :
  resp_json r = Some j -> ok r = false ->
  status_code r <> 400 -> status_code r <> 401 -> status_code r <> 500 ->
  post_outcome r = Return PNone.
Proof.
  intros Hj Hok H400 H401 H500. unfold post_outcome. rewrite Hj.
  apply Z.eqb_neq in H400, H401, H500. rewrite H400, H401, H500. simpl.
  rewrite Hok. reflexivity.
Qed.

Lemma put_outcome_unhandled r j :
  resp_json r = Some j -> ok r = false ->
  status_code r <> 400 -> status_code r <> 401 ->
  put_outcome r = Return PNone.
Proof.
  intros Hj Hok H400 H401. unfold put_outcome. rewrite Hj.
  apply Z.eqb_neq in H400, H401. rewrite H400, H401. simpl.
  rewrite Hok. reflexivity.
Qed.

Lemma outcomes_400_401 r j err :
  resp_json r = Some j -> getitem j "err" = Return err ->
  status_code r = 400 \/ status_code r = 401 ->
  get_outcome r = Raise (ClickupClientError err (PInt (status_code r))) /\
  post_outcome r = Raise (ClickupClientError err (PInt (status_code r))) /\
  put_outcome r = Raise (ClickupClientError err (PInt (status_code r))).
Proof.
  intros Hj Herr Hs. unfold get_outcome, post_outcome, put_outcome.
  rewrite Hj, Herr. destruct Hs as [Hs | Hs]; rewrite Hs; simpl; auto.
Qed.

(** X5. On a response that is [ok] (any status outside 400..599) and whose body
    is JSON, GET, POST and PUT return the parsed body and DELETE returns
    the status code. *)
Theorem ok_response_is_returned :
  forall (E : Env) (self : ClickUpClient) (model : string) (data : body)
         (upload_files : option (list (string * (string * file))))
         (file_upload : bool) (additionalpath : list string)
         (h : list request) (r : response) (j : pyval),
    (forall q, http E h q = r) ->
    resp_json r = Some j ->
    ok r = true ->
    get_request E self model additionalpath h =
      (Return j, [get_req E self model additionalpath]) /\
    post_request E self model data upload_files file_upload additionalpath h =
      (Return j, [post_req E self model data upload_files additionalpath]) /\
    put_request E self model data additionalpath h =
      (Return j, [put_req E self model data additionalpath]) /\
    delete_request E self model additionalpath h =
      (Return (PInt (status_code r)), [delete_req E self model additionalpath]).
Proof.
  intros E self model data upload_files file_upload additionalpath h r j
         Hr Hj Hok.
  rewrite get_request_run, post_request_run, put_request_run,
    delete_request_run, !Hr.
  rewrite (get_outcome_ok r j Hj Hok), (post_outcome_ok r j Hj Hok),
    (put_outcome_ok r j Hj Hok).
  unfold delete_outcome. rewrite Hok. auto.
Qed.

Lemma ok_response_is_returned_witness :
  let E := sample_env {| status_code := 201;
                         resp_json := Some (PDict [("id", PStr "457")]) |} in
  let data := JsonText (PDict [("name", PStr "Q3")]) in
  get_request E sample_client "folder/" ["457"] [] =
    (Return (PDict [("id", PStr "457")]),
     [get_req E sample_client "folder/" ["457"]]) /\
  post_request E sample_client "folder/" data None false ["457"] [] =
    (Return (PDict [("id", PStr "457")]),
     [post_req E sample_client "folder/" data None ["457"]]) /\
  put_request E sample_client "folder/" data ["457"] [] =
    (Return (PDict [("id", PStr "457")]),
     [put_req E sample_client "folder/" data ["457"]]) /\
  delete_request E sample_client "folder/" ["457"] [] =
    (Return (PInt 201), [delete_req E sample_client "folder/" ["457"]]).
Proof.
  intros E data.
  apply (ok_response_is_returned E sample_client "folder/" data None false
           ["457"] []
           {| status_code := 201;
              resp_json := Some (PDict [("id", PStr "457")]) |}
           (PDict [("id", PStr "457")])).
  - intro q. reflexivity.
  - reflexivity.
  - reflexivity.
Defined.

(** X6. GET, POST and PUT parse the body before they look at the status: when
    the body is not JSON they raise the decoding error whatever the status
    code, 2xx and 429 included. *)
Theorem non_json_body_raises :
  forall (E : Env) (self : ClickUpClient) (model : string) (data : body)
         (upload_files : option (list (string * (string * file))))
         (file_upload : bool) (additionalpath : list string)
         (h : list request),
    (forall q, resp_json (http E h q) = None) ->
    get_request E self model additionalpath h =
      (Raise JSONDecodeError, [get_req E self model additionalpath]) /\
    post_request E self model data upload_files file_upload additionalpath h =
      (Raise JSONDecodeError,
       [post_req E self model data upload_files additionalpath]) /\
    put_request E self model data additionalpath h =
      (Raise JSONDecodeError, [put_req E self model data additionalpath]).
Proof.
  intros E self model data upload_files file_upload additionalpath h Hj.
  rewrite get_request_run, post_request_run, put_request_run.
  unfold get_outcome, post_outcome, put_outcome. rewrite !Hj. auto.
Qed.

Lemma non_json_body_raises_witness :
  let E := sample_env {| status_code := 200; resp_json := None |} in
  let data := JsonText (PDict [("name", PStr "Q3")]) in
  get_request E sample_client "folder/" ["457"] [] =
    (Raise JSONDecodeError, [get_req E sample_client "folder/" ["457"]]) /\
  post_request E sample_client "folder/" data None false ["457"] [] =
    (Raise JSONDecodeError,
     [post_req E sample_client "folder/" data None ["457"]]) /\
  put_request E sample_client "folder/" data ["457"] [] =
    (Raise JSONDecodeError, [put_req E sample_client "folder/" data ["457"]]).
Proof.
  intros E data.
  apply (non_json_body_raises E sample_client "folder/" data None false
           ["457"] []).
  intro q. reflexivity.
Defined.

(** X8. On 400 or 401 with a JSON object that has no ["err"] member, GET, POST
    and PUT raise [KeyError] for ["err"] instead of the client error. *)
Theorem error_body_without_err_raises_KeyError :
  forall (E : Env) (self : ClickUpClient) (model : string) (data : body)
         (upload_files : option (list (string * (string * file))))
         (file_upload : bool) (additionalpath : list string)
         (h : list request) (r : response) (d : dict),
    (forall q, http E h q = r) ->
    status_code r = 400 \/ status_code r = 401 ->
    resp_json r = Some (PDict d) ->
    dict_get "err" d = None ->
    get_request E self model additionalpath h =
      (Raise (KeyError "err"), [get_req E self model additionalpath]) /\
    post_request E self model data upload_files file_upload additionalpath h =
      (Raise (KeyError "err"),
       [post_req E self model data upload_files additionalpath]) /\
    put_request E self model data additionalpath h =
      (Raise (KeyError "err"), [put_req E self model data additionalpath]).
Proof.
  intros E self model data upload_files file_upload additionalpath h r d
         Hr Hs Hj Hd.
  rewrite get_request_run, post_request_run, put_request_run, !Hr.
  unfold get_outcome, post_outcome, put_outcome, getitem.
  rewrite Hj, Hd. destruct Hs as [Hs | Hs]; rewrite Hs; simpl; auto.
Qed.

Lemma error_body_without_err_raises_KeyError_witness :
  let r := {| status_code := 401;
              resp_json := Some (PDict [("message", PStr "Token invalid")]) |} in
  let E := sample_env r in
  let data := JsonText (PDict [("name", PStr "Q3")]) in
  get_request E sample_client "folder/" ["457"] [] =
    (Raise (KeyError "err"), [get_req E sample_client "folder/" ["457"]]) /\
  post_request E sample_client "folder/" data None false ["457"] [] =
    (Raise (KeyError "err"),
     [post_req E sample_client "folder/" data None ["457"]]) /\
  put_request E sample_client "folder/" data ["457"] [] =
    (Raise (KeyError "err"), [put_req E sample_client "folder/" data ["457"]]).
Proof.
  intros r E data.
  apply (error_body_without_err_raises_KeyError E sample_client "folder/" data
           None false ["457"] [] r [("message", PStr "Token invalid")]).
  - intro q. reflexivity.
  - right. reflexivity.
  - reflexivity.
  - reflexivity.
Defined.

(** X7. On 400 or 401 with a JSON object that has an ["err"] member, GET, POST
    and PUT raise the client error carrying that member and the status
    code; POST does the same on 500. *)
Theorem error_status_raises_client_error :
  forall (E : Env) (self : ClickUpClient) (model : string) (data : body)
         (upload_files : option (list (string * (string * file))))
         (file_upload : bool) (additionalpath : list string)
         (h : list request) (r : response) (j err : pyval),
    (forall q, http E h q = r) ->
    resp_json r = Some j ->
    getitem j "err" = Return err ->
    (status_code r = 400 \/ status_code r = 401 ->
     get_request E self model additionalpath h =
       (Raise (ClickupClientError err (PInt (status_code r))),
        [get_req E self model additionalpath]) /\
     put_request E self model data additionalpath h =
       (Raise (ClickupClientError err (PInt (status_code r))),
        [put_req E self model data additionalpath])) /\
    (status_code r = 400 \/ status_code r = 401 \/ status_code r = 500 ->
     post_request E self model data upload_files file_upload additionalpath h =
       (Raise (ClickupClientError err (PInt (status_code r))),
        [post_req E self model data upload_files additionalpath])).
Proof.
  intros E self model data upload_files file_upload additionalpath h r j err
         Hr Hj Herr.
  split.
  - intro Hs. split.
    + pose proof (get_request_400_401 E self model additionalpath h j err) as H.
      cbv zeta in H. rewrite !Hr in H. apply H; assumption.
    + pose proof (put_request_400_401 E self model data additionalpath h j err)
        as H.
      cbv zeta in H. rewrite !Hr in H. apply H; assumption.
  - intro Hs.
    pose proof (post_request_400_401_500 E self model data upload_files
                  file_upload additionalpath h j err) as H.
    cbv zeta in H. rewrite !Hr in H. apply H; assumption.
Qed.

Lemma error_status_raises_client_error_witness :
  let r := {| status_code := 401;
              resp_json := Some (err_body "Token invalid") |} in
  let E := sample_env r in
  let data := JsonText (PDict [("name", PStr "Q3")]) in
  get_request E sample_client "folder/" ["457"] [] =
    (Raise (ClickupClientError (PStr "Token invalid") (PInt 401)),
     [get_req E sample_client "folder/" ["457"]]) /\
  put_request E sample_client "folder/" data ["457"] [] =
    (Raise (ClickupClientError (PStr "Token invalid") (PInt 401)),
     [put_req E sample_client "folder/" data ["457"]]) /\
  post_request E sample_client "folder/" data None false ["457"] [] =
    (Raise (ClickupClientError (PStr "Token invalid") (PInt 401)),
     [post_req E sample_client "folder/" data None ["457"]]).
Proof.
  intros r E data.
  destruct (error_status_raises_client_error E sample_client "folder/" data
              None false ["457"] [] r (err_body "Token invalid")
              (PStr "Token invalid"))
    as [Hgp Hpost].
  - intro q. reflexivity.
  - reflexivity.
  - reflexivity.
  - destruct Hgp as [Hg Hp]; [right; reflexivity |].
    split; [exact Hg | split; [exact Hp |]].
    apply Hpost. right. left. reflexivity.
Defined.

(** A 429 answer to a GET whose body is JSON raises the rate-limit error
    with the status code 429. *)
Lemma get_request_429_witness :
  get_request (sample_env {| status_code := 429;
                             resp_json := Some (err_body "Rate limit reached") |})
              sample_client "task/" ["9hz"] [] =
  (Raise (ClickupClientError (PStr "Rate limit exceeded") (PInt 429)),
   [get_req (sample_env {| status_code := 429;
                           resp_json := Some (err_body "Rate limit reached") |})
            sample_client "task/" ["9hz"]]).
Proof.
  apply (get_request_429 _ sample_client "task/" ["9hz"] []
           (err_body "Rate limit reached")); reflexivity.
Defined.

(** ** Methods, from response to result *)

Lemma bind_get_request E self model additionalpath {B : Type}
  (f : pyval -> M B) h :
  (forall a, quiet (f a)) ->
  bind (get_request E self model additionalpath) f h =
  (and_then (get_outcome (http E h (get_req E self model additionalpath)))
            (fun v => fst (f v (h ++ [get_req E self model additionalpath]))),
   [get_req E self model additionalpath]).
Proof.
  intro Hq. unfold bind. rewrite get_request_run. simpl.
  destruct (get_outcome _); simpl; [rewrite Hq |]; reflexivity.
Qed.

Lemma bind_post_request E self model data upload_files file_upload
  additionalpath {B : Type} (f : pyval -> M B) h :
  (forall a, quiet (f a)) ->
  bind (post_request E self model data upload_files file_upload additionalpath)
       f h =
  (and_then
     (post_outcome
        (http E h (post_req E self model data upload_files additionalpath)))
     (fun v => fst (f v (h ++ [post_req E self model data upload_files
                                 additionalpath]))),
   [post_req E self model data upload_files additionalpath]).
Proof.
  intro Hq. unfold bind. rewrite post_request_run. simpl.
  destruct (post_outcome _); simpl; [rewrite Hq |]; reflexivity.
Qed.

Lemma bind_put_request E self model data additionalpath {B : Type}
  (f : pyval -> M B) h :
  (forall a, quiet (f a)) ->
  bind (put_request E self model data additionalpath) f h =
  (and_then (put_outcome (http E h (put_req E self model data additionalpath)))
            (fun v => fst (f v (h ++ [put_req E self model data
                                        additionalpath]))),
   [put_req E self model data additionalpath]).
Proof.
  intro Hq. unfold bind. rewrite put_request_run. simpl.
  destruct (put_outcome _); simpl; [rewrite Hq |]; reflexivity.
Qed.

Lemma bind_delete_request E self model additionalpath {B : Type}
  (f : pyval -> M B) h :
  (forall a, quiet (f a)) ->
  bind (delete_request E self model additionalpath) f h =
  (and_then (delete_outcome (http E h (delete_req E self model additionalpath)))
            (fun v => fst (f v (h ++ [delete_req E self model additionalpath]))),
   [delete_req E self model additionalpath]).
Proof.
  intro Hq. unfold bind. rewrite delete_request_run. simpl.
  destruct (delete_outcome _); simpl; [rewrite Hq |]; reflexivity.
Qed.

Lemma fst_build_if_truthy E build v h :
  fst (build_if_truthy E build v h) = built_if_truthy E build v.
Proof.
  unfold build_if_truthy, built_if_truthy. destruct (truthy E v); reflexivity.
Qed.

Lemma fst_build_then_check E build v h :
  fst (build_then_check E build v h) = built_then_checked E build v.
Proof.
  unfold build_then_check, built_then_checked, bind, lift. simpl.
  destruct (build v) as [final | e]; simpl; [| reflexivity].
  destruct (truthy E final); reflexivity.
Qed.

(** Rewrites a method that starts with its request into the outcome of the
    primitive followed by the rest of the method. *)
Ltac run_request :=
  first
    [ rewrite bind_get_request by (intro; step_quiet)
    | rewrite bind_post_request by (intro; step_quiet)
    | rewrite bind_put_request by (intro; step_quiet)
    | rewrite bind_delete_request by (intro; step_quiet) ].

(** Once the outcome of the primitive is known, what the rest returns. *)
Ltac finish_run :=
  cbn beta iota delta [fst and_then];
  rewrite ?fst_build_if_truthy, ?fst_build_then_check;
  try reflexivity.

(** X10. The delete methods never read the body: they return [True] exactly
    when the response is [ok] (status outside 400..599) and raise
    [NameError] otherwise. *)
Theorem delete_methods_outcome :
  forall (E : Env) (self : ClickUpClient) (id : string) (h : list request),
    delete_folder E self id h =
      (if ok (http E h (delete_req E self "folder/" [id]))
       then Return (PBool true) else Raise (NameError "response_json"),
       [delete_req E self "folder/" [id]]) /\
    delete_task E self id h =
      (if ok (http E h (delete_req E self "task/" [id]))
       then Return (PBool true) else Raise (NameError "response_json"),
       [delete_req E self "task/" [id]]) /\
    delete_comment E self id h =
      (if ok (http E h (delete_req E self "comment/" [id]))
       then Return (PBool true) else Raise (NameError "response_json"),
       [delete_req E self "comment/" [id]]).
Proof.
  intros E self id h.
  unfold delete_folder, delete_task, delete_comment.
  repeat split; run_request; unfold delete_outcome;
    destruct (ok _); reflexivity.
Qed.

(** X12. On a GET answer that no branch handles (JSON body, status in 400..599
    other than 400, 401 and 429), [get_list], [get_lists], [get_tasks],
    [get_task] and the comment getters pass [None] to their builder, while
    [get_folder] and [get_folders] return [None] without building. *)
Theorem unhandled_status_reaches_builders :
  forall (E : Env) (self : ClickUpClient) (id : string) (h : list request)
         (r : response) (j : pyval),
    (forall q, http E h q = r) ->
    resp_json r = Some j ->
    400 <= status_code r < 600 ->
    status_code r <> 429 -> status_code r <> 400 -> status_code r <> 401 ->
    fst (get_list E self id h) = build_list E PNone /\
    fst (get_lists E self id h) = build_lists E PNone /\
    fst (get_tasks E self id h) = build_tasks E PNone /\
    fst (get_task E self id h) = built_then_checked E (build_task E) PNone /\
    fst (get_task_comments E self id h) =
      built_then_checked E (build_comments E) PNone /\
    fst (get_list_comments E self id h) =
      built_then_checked E (build_comments E) PNone /\
    fst (get_chat_comments E self id h) =
      built_then_checked E (build_comments E) PNone /\
    fst (get_folder E self id h) = Return PNone /\
    fst (get_folders E self id h) = Return PNone.
Proof.
  intros E self id h r j Hr Hj Hs H429 H400 H401.
  apply ok_false_iff in Hs.
  pose proof (get_outcome_unhandled r j Hj Hs H429 H400 H401) as Hout.
  unfold get_list, get_lists, get_tasks, get_task, get_task_comments,
    get_list_comments, get_chat_comments, get_folder, get_folders.
  repeat split; run_request; rewrite Hr, Hout; finish_run.
Qed.

Lemma unhandled_status_reaches_builders_witness :
  let r := {| status_code := 404;
              resp_json := Some (err_body "Not found") |} in
  let E := sample_env r in
  fst (get_list E sample_client "124" []) = build_list E PNone /\
  fst (get_lists E sample_client "124" []) = build_lists E PNone /\
  fst (get_tasks E sample_client "124" []) = build_tasks E PNone /\
  fst (get_task E sample_client "124" []) =
    built_then_checked E (build_task E) PNone /\
  fst (get_task_comments E sample_client "124" []) =
    built_then_checked E (build_comments E) PNone /\
  fst (get_list_comments E sample_client "124" []) =
    built_then_checked E (build_comments E) PNone /\
  fst (get_chat_comments E sample_client "124" []) =
    built_then_checked E (build_comments E) PNone /\
  fst (get_folder E sample_client "124" []) = Return PNone /\
  fst (get_folders E sample_client "124" []) = Return PNone.
Proof.
  intros r E.
  apply (unhandled_status_reaches_builders E sample_client "124" [] r
           (err_body "Not found")).
  - intro q. reflexivity.
  - reflexivity.
  - simpl. lia.
  - simpl. lia.
  - simpl. lia.
  - simpl. lia.
Defined.

(** X11. On an [ok] answer with JSON body [j], the getters hand [j] to the
    builder of their resource: [get_list], [get_lists] and [get_tasks]
    return what it returns; [get_folder] and [get_folders] build only a
    truthy [j] (and return [None] for [{}], [[]] and the like); [get_task]
    and the comment getters return [None] when the built object is falsy. *)
Theorem getters_build_from_body :
  forall (E : Env) (self : ClickUpClient) (id : string) (h : list request)
         (r : response) (j : pyval),
    (forall q, http E h q = r) ->
    resp_json r = Some j ->
    ok r = true ->
    fst (get_list E self id h) = build_list E j /\
    fst (get_lists E self id h) = build_lists E j /\
    fst (get_tasks E self id h) = build_tasks E j /\
    fst (get_folder E self id h) =
      (if truthy E j then build_folder E j else Return PNone) /\
    fst (get_folders E self id h) =
      (if truthy E j then build_folders E j else Return PNone) /\
    fst (get_task E self id h) =
      and_then (build_task E j)
               (fun t => if truthy E t then Return t else Return PNone) /\
    fst (get_task_comments E self id h) =
      and_then (build_comments E j)
               (fun t => if truthy E t then Return t else Return PNone) /\
    fst (get_list_comments E self id h) =
      and_then (build_comments E j)
               (fun t => if truthy E t then Return t else Return PNone) /\
    fst (get_chat_comments E self id h) =
      and_then (build_comments E j)
               (fun t => if truthy E t then Return t else Return PNone).
Proof.
  intros E self id h r j Hr Hj Hok.
  pose proof (get_outcome_ok r j Hj Hok) as Hout.
  unfold get_list, get_lists, get_tasks, get_task, get_task_comments,
    get_list_comments, get_chat_comments, get_folder, get_folders.
  repeat split; run_request; rewrite Hr, Hout; finish_run.
Qed.

Lemma getters_build_from_body_witness :
  let j := PDict [("id", PStr "124")] in
  let r := {| status_code := 200; resp_json := Some j |} in
  let E := sample_env r in
  fst (get_list E sample_client "124" []) = build_list E j /\
  fst (get_lists E sample_client "124" []) = build_lists E j /\
  fst (get_tasks E sample_client "124" []) = build_tasks E j /\
  fst (get_folder E sample_client "124" []) =
    (if truthy E j then build_folder E j else Return PNone) /\
  fst (get_folders E sample_client "124" []) =
    (if truthy E j then build_folders E j else Return PNone) /\
  fst (get_task E sample_client "124" []) =
    and_then (build_task E j)
             (fun t => if truthy E t then Return t else Return PNone) /\
  fst (get_task_comments E sample_client "124" []) =
    and_then (build_comments E j)
             (fun t => if truthy E t then Return t else Return PNone) /\
  fst (get_list_comments E sample_client "124" []) =
    and_then (build_comments E j)
             (fun t => if truthy E t then Return t else Return PNone) /\
  fst (get_chat_comments E sample_client "124" []) =
    and_then (build_comments E j)
             (fun t => if truthy E t then Return t else Return PNone).
Proof.
  intros j r E.
  apply (getters_build_from_body E sample_client "124" [] r j).
  - intro q. reflexivity.
  - reflexivity.
  - reflexivity.
Defined.

Lemma create_list_outcome E self a h :
  create_list E self a h =
  (and_then
     (post_outcome
        (http E h (post_req E self "folder/"
                     (JsonText (PDict (create_list_data a))) None
                     [cl_folder_id a; "list"])))
     (built_if_truthy E (build_list E)),
   [post_req E self "folder/" (JsonText (PDict (create_list_data a))) None
      [cl_folder_id a; "list"]]).
Proof.
  unfold create_list.
  rewrite (bind_lift_Return _ _ _ (JsonText (PDict (create_list_data a)))).
  - run_request. f_equal. destruct (post_outcome _); finish_run.
  - apply json_dumps_ok. unfold create_list_data. simpl.
    repeat (rewrite serializable_of_opt by reflexivity). reflexivity.
Qed.

Lemma create_folder_outcome E self space_id name h :
  create_folder E self space_id name h =
  (and_then
     (post_outcome
        (http E h (post_req E self "space/"
                     (JsonText (PDict [("name", PStr name)])) None
                     [space_id; "folder"])))
     (built_if_truthy E (build_folder E)),
   [post_req E self "space/" (JsonText (PDict [("name", PStr name)])) None
      [space_id; "folder"]]).
Proof.
  unfold create_folder.
  rewrite (bind_lift_Return _ _ _ (JsonText (PDict [("name", PStr name)])))
    by reflexivity.
  run_request. f_equal. destruct (post_outcome _); finish_run.
Qed.

Lemma update_folder_outcome E self folder_id name h :
  update_folder E self folder_id name h =
  (and_then
     (put_outcome
        (http E h (put_req E self "folder/"
                     (JsonText (PDict [("name", PStr name)])) [folder_id])))
     (built_if_truthy E (build_folder E)),
   [put_req E self "folder/" (JsonText (PDict [("name", PStr name)]))
      [folder_id]]).
Proof.
  unfold update_folder.
  rewrite (bind_lift_Return _ _ _ (JsonText (PDict [("name", PStr name)])))
    by reflexivity.
  run_request. f_equal. destruct (put_outcome _); finish_run.
Qed.

Lemma update_comment_outcome E self a h :
  update_comment E self a h =
  (and_then
     (put_outcome
        (http E h (put_req E self "comment/"
                     (JsonText (PDict (drop_none (update_comment_params a))))
                     [uc_comment_id a])))
     (fun v => Return (if truthy E v then PBool true else PNone)),
   [put_req E self "comment/"
      (JsonText (PDict (drop_none (update_comment_params a))))
      [uc_comment_id a]]).
Proof.
  unfold update_comment.
  rewrite (bind_lift_Return _ _ _
             (JsonText (PDict (drop_none (update_comment_params a))))).
  - run_request. f_equal. destruct (put_outcome _) as [v |]; finish_run.
    destruct (truthy E v); reflexivity.
  - apply json_dumps_ok.
    change (json_serializable
              (PDict (drop_none (update_comment_params a))) = true).
    apply serializable_drop_none. unfold update_comment_params. simpl.
    repeat (rewrite serializable_of_opt by (intro; reflexivity)).
    reflexivity.
Qed.

Lemma create_task_comment_outcome E self a h :
  create_task_comment E self a h =
  (and_then
     (post_outcome
        (http E h (post_req E self "task/"
                     (JsonText (PDict (drop_none (create_task_comment_params a))))
                     None [cc_task_id a; "comment"])))
     (built_then_checked E (build_comment E)),
   [post_req E self "task/"
      (JsonText (PDict (drop_none (create_task_comment_params a)))) None
      [cc_task_id a; "comment"]]).
Proof.
  unfold create_task_comment.
  rewrite (bind_lift_Return _ _ _
             (JsonText (PDict (drop_none (create_task_comment_params a))))).
  - run_request. f_equal. destruct (post_outcome _); finish_run.
  - apply json_dumps_ok.
    change (json_serializable
              (PDict (drop_none (create_task_comment_params a))) = true).
    apply serializable_drop_none. unfold create_task_comment_params. simpl.
    repeat (rewrite serializable_of_opt by (intro; reflexivity)).
    reflexivity.
Qed.

Lemma create_task_outcome E self a h due :
  priority_rejected (ct_priority a) = false ->
  convert_due_date E (ct_due_date a) = Return due ->
  json_serializable due = true ->
  create_task E self a h =
  (and_then
     (post_outcome
        (http E h (post_req E self "list/"
                     (JsonText (PDict (drop_none (create_task_params a due))))
                     None [ct_list_id a; "task"])))
     (built_if_truthy E (build_task E)),
   [post_req E self "list/"
      (JsonText (PDict (drop_none (create_task_params a due)))) None
      [ct_list_id a; "task"]]).
Proof.
  intros Hp Hdue Hser. unfold create_task. rewrite Hp.
  rewrite (bind_lift_Return _ _ _ due Hdue).
  rewrite (bind_lift_Return _ _ _
             (JsonText (PDict (drop_none (create_task_params a due))))).
  - run_request. f_equal. destruct (post_outcome _); finish_run.
  - apply json_dumps_ok. apply create_task_params_serializable. exact Hser.
Qed.

Lemma update_task_outcome E self a h :
  priority_rejected (ut_priority a) = false ->
  update_task E self a h =
  (and_then
     (put_outcome
        (http E h (put_req E self "task/"
                     (JsonText (PDict (drop_none (update_task_arguments E self a))))
                     [ut_task_id a])))
     (built_if_truthy E (build_task E)),
   [put_req E self "task/"
      (JsonText (PDict (drop_none (update_task_arguments E self a))))
      [ut_task_id a]]).
Proof.
  intro Hp. unfold update_task. rewrite Hp.
  rewrite (bind_lift_Return _ _ _
             (JsonText (PDict (drop_none (update_task_arguments E self a))))).
  - run_request. f_equal. destruct (put_outcome _); finish_run.
  - apply json_dumps_ok. apply update_task_serializable.
Qed.

(** X15. [update_comment] returns [True] when the [ok] answer has a truthy JSON
    body and [None] when that body is falsy, an empty object [{}] included;
    it never returns a comment. *)
Theorem update_comment_result :
  forall (E : Env) (self : ClickUpClient) (a : update_comment_args)
         (h : list request) (r : response) (j : pyval),
    (forall q, http E h q = r) ->
    resp_json r = Some j ->
    ok r = true ->
    fst (update_comment E self a h) =
      Return (if truthy E j then PBool true else PNone).
Proof.
  intros E self a h r j Hr Hj Hok.
  rewrite update_comment_outcome, Hr, (put_outcome_ok r j Hj Hok). reflexivity.
Qed.

Lemma update_comment_result_witness :
  let a := {| uc_comment_id := "456"; uc_comment_text := Some "Done";
              uc_assignee := None; uc_resolved := Some true |} in
  fst (update_comment
         (sample_env {| status_code := 200; resp_json := Some (PDict []) |})
         sample_client a []) = Return PNone.
Proof.
  intro a.
  apply (update_comment_result
           (sample_env {| status_code := 200; resp_json := Some (PDict []) |})
           sample_client a [] {| status_code := 200; resp_json := Some (PDict []) |}
           (PDict [])).
  - intro q. reflexivity.
  - reflexivity.
  - reflexivity.
Defined.

(** X13. On an [ok] answer with JSON body [j], the create and update methods
    build their result from [j] when [j] is truthy and return [None] when
    it is falsy; [create_task_comment] builds from [j] in any case and
    returns [None] when the built comment is falsy. *)
Theorem writers_build_from_body :
  forall (E : Env) (self : ClickUpClient) (h : list request)
         (r : response) (j : pyval),
    (forall q, http E h q = r) ->
    resp_json r = Some j ->
    ok r = true ->
    (forall a, fst (create_list E self a h) =
               (if truthy E j then build_list E j else Return PNone)) /\
    (forall i n, fst (create_folder E self i n h) =
                 (if truthy E j then build_folder E j else Return PNone)) /\
    (forall i n, fst (update_folder E self i n h) =
                 (if truthy E j then build_folder E j else Return PNone)) /\
    (forall a due,
        priority_rejected (ct_priority a) = false ->
        convert_due_date E (ct_due_date a) = Return due ->
        json_serializable due = true ->
        fst (create_task E self a h) =
        (if truthy E j then build_task E j else Return PNone)) /\
    (forall a,
        priority_rejected (ut_priority a) = false ->
        fst (update_task E self a h) =
        (if truthy E j then build_task E j else Return PNone)) /\
    (forall a, fst (create_task_comment E self a h) =
               and_then (build_comment E j)
                 (fun t => if truthy E t then Return t else Return PNone)).
Proof.
  intros E self h r j Hr Hj Hok.
  pose proof (post_outcome_ok r j Hj Hok) as Hpost.
  pose proof (put_outcome_ok r j Hj Hok) as Hput.
  repeat split; intros.
  - rewrite create_list_outcome, Hr, Hpost. reflexivity.
  - rewrite create_folder_outcome, Hr, Hpost. reflexivity.
  - rewrite update_folder_outcome, Hr, Hput. reflexivity.
  - rewrite (create_task_outcome E self a h due) by assumption.
    rewrite Hr, Hpost. reflexivity.
  - rewrite update_task_outcome by assumption. rewrite Hr, Hput. reflexivity.
  - rewrite create_task_comment_outcome, Hr, Hpost. reflexivity.
Qed.

Lemma writers_build_from_body_witness :
  let j := PDict [("id", PStr "9hz")] in
  let r := {| status_code := 200; resp_json := Some j |} in
  let E := sample_env r in
  let a :=
    {| ct_list_id := "124"; ct_name := "Write report"; ct_description := None;
       ct_priority := Some 2; ct_assignees := None; ct_tags := None;
       ct_status := None; ct_due_date := Some "tomorrow";
       ct_start_date := None; ct_notify_all := true |} in
  fst (create_folder E sample_client "790" "Q3" []) =
    Return (PObject "Folder" [("payload", j)]) /\
  fst (create_task E sample_client a []) =
    Return (PObject "Task" [("payload", j)]) /\
  fst (update_task E sample_client (update_task_defaults "9hz") []) =
    Return (PObject "Task" [("payload", j)]).
Proof.
  intros j r E a.
  destruct (writers_build_from_body E sample_client [] r j)
    as (_ & Hcf & _ & Hct & Hut & _).
  - intro q. reflexivity.
  - reflexivity.
  - reflexivity.
  - split; [apply Hcf |].
    split; [apply (Hct a (PInt 1767225600000)); reflexivity |].
    apply Hut. reflexivity.
Defined.

(** X14. On an answer that the primitive does not handle (JSON body, status in
    400..599 other than 400, 401 and, for POST, 500) the create and update
    methods return [None] as if nothing had happened, [update_comment]
    included, and [create_task_comment] passes [None] to its builder. *)
Theorem writers_swallow_unhandled_status :
  forall (E : Env) (self : ClickUpClient) (h : list request)
         (r : response) (j : pyval),
    (forall q, http E h q = r) ->
    resp_json r = Some j ->
    400 <= status_code r < 600 ->
    status_code r <> 400 -> status_code r <> 401 -> status_code r <> 500 ->
    (forall a, fst (create_list E self a h) = Return PNone) /\
    (forall i n, fst (create_folder E self i n h) = Return PNone) /\
    (forall i n, fst (update_folder E self i n h) = Return PNone) /\
    (forall a, fst (update_comment E self a h) = Return PNone) /\
    (forall a, fst (create_task_comment E self a h) =
               built_then_checked E (build_comment E) PNone).
Proof.
  intros E self h r j Hr Hj Hs H400 H401 H500.
  apply ok_false_iff in Hs.
  pose proof (post_outcome_unhandled r j Hj Hs H400 H401 H500) as Hpost.
  pose proof (put_outcome_unhandled r j Hj Hs H400 H401) as Hput.
  repeat split; intros.
  - rewrite create_list_outcome, Hr, Hpost. reflexivity.
  - rewrite create_folder_outcome, Hr, Hpost. reflexivity.
  - rewrite update_folder_outcome, Hr, Hput. reflexivity.
  - rewrite update_comment_outcome, Hr, Hput. reflexivity.
  - rewrite create_task_comment_outcome, Hr, Hpost. reflexivity.
Qed.

Lemma writers_swallow_unhandled_status_witness :
  let r := {| status_code := 403;
              resp_json := Some (err_body "Team not authorized") |} in
  let E := sample_env r in
  fst (create_folder E sample_client "790" "Q3" []) = Return PNone /\
  fst (update_folder E sample_client "457" "Q3" []) = Return PNone.
Proof.
  intros r E.
  destruct (writers_swallow_unhandled_status E sample_client [] r
              (err_body "Team not authorized"))
    as (_ & Hcf & Huf & _).
  - intro q. reflexivity.
  - reflexivity.
  - simpl. lia.
  - simpl. lia.
  - simpl. lia.
  - simpl. lia.
  - split; [apply Hcf | apply Huf].
Defined.

(** ** Uploading an attachment *)

Lemma upload_attachment_outcome E self task_id file_path h b :
  fs_exists E file_path = true ->
  fs_read E file_path = Some b ->
  let q :=
    {| req_method := POST;
       req_url := url_join E [API_URL; ("task/" ++ task_id)%string; "attachment"];
       req_headers := [("Authorization", accesstoken self)];
       req_data := FormFields [("filename", PStr (ntpath_basename E file_path))];
       req_files :=
         Some [("attachment",
                (file_path, {| file_name := file_path; file_bytes := b |}))] |} in
  upload_attachment E self task_id file_path h =
  (and_then (post_outcome (http E h q))
     (fun v => if truthy E v then build_attachment E v
               else Raise (UnboundLocalError "final_attachment")),
   [q]).
Proof.
  intros Hex Hread q. unfold upload_attachment. rewrite Hex.
  assert (Hopen : py_open E file_path =
                  Return {| file_name := file_path; file_bytes := b |})
    by (unfold py_open; rewrite Hread; reflexivity).
  rewrite (bind_lift_Return _ _ _ _ Hopen).
  rewrite (bind_lift_Return _ _ _ _ Hopen).
  rewrite bind_post_request by (intro; step_quiet).
  cbn [file_name].
  match goal with
  | |- context [post_req ?e ?s ?m ?d ?u ?p] =>
      change (post_req e s m d u p) with q
  end.
  f_equal.
  destruct (post_outcome (http E h q)) as [v |]; cbn [and_then]; [| reflexivity].
  destruct (truthy E v); [| reflexivity].
  unfold bind, lift, ret. simpl. destruct (build_attachment E v); reflexivity.
Qed.



(** X17. After the upload, a truthy JSON body of an [ok] answer is built into the
    attachment; a falsy body, or an answer the POST primitive does not
    handle (JSON body, status in 400..599 other than 400, 401 and 500),
    makes [return final_attachment] raise [UnboundLocalError]. *)
Theorem upload_result :
  forall (E : Env) (self : ClickUpClient) (task_id file_path : string)
         (h : list request) (b : string) (r : response) (j : pyval),
    fs_exists E file_path = true ->
    fs_read E file_path = Some b ->
    (forall q, http E h q = r) ->
    resp_json r = Some j ->
    (ok r = true ->
     fst (upload_attachment E self task_id file_path h) =
       (if truthy E j then build_attachment E j
        else Raise (UnboundLocalError "final_attachment"))) /\
    (400 <= status_code r < 600 ->
     status_code r <> 400 -> status_code r <> 401 -> status_code r <> 500 ->
     fst (upload_attachment E self task_id file_path h) =
       Raise (UnboundLocalError "final_attachment")).
Proof.
  intros E self task_id file_path h b r j Hex Hread Hr Hj.
  rewrite (upload_attachment_outcome E self task_id file_path h b Hex Hread).
  cbv zeta. rewrite Hr. split.
  - intro Hok. rewrite (post_outcome_ok r j Hj Hok). reflexivity.
  - intros Hs H400 H401 H500. apply ok_false_iff in Hs.
    rewrite (post_outcome_unhandled r j Hj Hs H400 H401 H500). reflexivity.
Qed.

Lemma upload_result_witness :
  fst (upload_attachment
         (sample_env_with_files
            {| status_code := 200; resp_json := Some (PDict []) |})
         sample_client "9hz" "/tmp/report.pdf" []) =
    Raise (UnboundLocalError "final_attachment") /\
  fst (upload_attachment
         (sample_env_with_files
            {| status_code := 413;
               resp_json := Some (err_body "File too large") |})
         sample_client "9hz" "/tmp/report.pdf" []) =
    Raise (UnboundLocalError "final_attachment").
Proof.
  split.
  - destruct (upload_result
                (sample_env_with_files
                   {| status_code := 200; resp_json := Some (PDict []) |})
                sample_client "9hz" "/tmp/report.pdf" [] "%PDF-1.4"
                {| status_code := 200; resp_json := Some (PDict []) |}
                (PDict []))
      as [Hok _].
    + reflexivity.
    + reflexivity.
    + intro q. reflexivity.
    + reflexivity.
    + apply Hok. reflexivity.
  - destruct (upload_result
                (sample_env_with_files
                   {| status_code := 413;
                      resp_json := Some (err_body "File too large") |})
                sample_client "9hz" "/tmp/report.pdf" [] "%PDF-1.4"
                {| status_code := 413;
                   resp_json := Some (err_body "File too large") |}
                (err_body "File too large"))
      as [_ Hbad].
    + reflexivity.
    + reflexivity.
    + intro q. reflexivity.
    + reflexivity.
    + apply Hbad; simpl; lia.
Defined.

(** ** A rejected request, method by method *)

Lemma ends_with_quiet {A : Type} e (m : M A) : quiet m -> ends_with e m.
Proof. intros Hm h. left. apply Hm. Qed.

Lemma ends_with_after_quiet {A B : Type} e (m : M A) (f : A -> M B) :
  quiet m -> (forall a, ends_with e (f a)) -> ends_with e (bind m f).
Proof.
  intros Hm Hf h. unfold bind. destruct (fst (m h)) as [a | e'] eqn:Hres.
  - simpl. rewrite Hm. simpl. apply Hf.
  - left. simpl. apply Hm.
Qed.

Lemma ends_with_raising {A B : Type} e (m : M A) (f : A -> M B) :
  (forall h, fst (m h) = Raise e) -> ends_with e (bind m f).
Proof. intros Hm h. right. unfold bind. rewrite Hm. reflexivity. Qed.

Ltac step_ends_with :=
  repeat first
    [ apply ends_with_quiet; solve [step_quiet]
    | apply ends_with_after_quiet; [solve [step_quiet] | intro]
    | apply ends_with_raising; intro
    | match goal with
      | |- ends_with _ (if ?b then _ else _) => destruct b
      end ].

(** X18. When the server rejects every request with 400 or 401 and a JSON object
    holding an ["err"] member, every resource method that reaches the
    server raises: the fetch, create, update and upload methods raise the
    client error with that member and the status code, and the delete
    methods raise [NameError]. No method returns a value. *)
Theorem rejected_request_surfaces :
  forall (E : Env) (self : ClickUpClient) (c : call) (h : list request)
         (r : response) (j err : pyval),
    (forall h' q, http E h' q = r) ->
    status_code r = 400 \/ status_code r = 401 ->
    resp_json r = Some j ->
    getitem j "err" = Return err ->
    snd (invoke E self c h) = [] \/
    fst (invoke E self c h) =
      Raise (match verb c with
             | DELETE => NameError "response_json"
             | _ => ClickupClientError err (PInt (status_code r))
             end).
Proof.
  intros E self c h r j err Hr Hs Hj Herr.
  destruct (outcomes_400_401 r j err Hj Herr Hs) as (Hget & Hpost & Hput).
  assert (Hdel : delete_outcome r = Raise (NameError "response_json")).
  { unfold delete_outcome.
    assert (Hok : ok r = false) by (apply ok_false_iff; lia).
    rewrite Hok. reflexivity. }
  revert h.
  change (ends_with
            (match verb c with
             | DELETE => NameError "response_json"
             | _ => ClickupClientError err (PInt (status_code r))
             end) (invoke E self c)).
  destruct c; unfold_method; cbn [verb]; step_ends_with;
    rewrite ?get_request_run, ?post_request_run, ?put_request_run,
      ?delete_request_run;
    cbn [fst]; rewrite Hr; assumption.
Qed.

Lemma rejected_request_surfaces_witness :
  let r := {| status_code := 401;
              resp_json := Some (err_body "Token invalid") |} in
  let E := sample_env r in
  snd (invoke E sample_client (Get_task "9hz") []) = [] \/
  fst (invoke E sample_client (Get_task "9hz") []) =
    Raise (ClickupClientError (PStr "Token invalid") (PInt 401)).
Proof.
  intros r E.
  apply (rejected_request_surfaces E sample_client (Get_task "9hz") [] r
           (err_body "Token invalid") (PStr "Token invalid")).
  - intros h' q. reflexivity.
  - right. reflexivity.
  - reflexivity.
  - reflexivity.
Defined.

(** ** Priorities and dates, continued *)

Lemma priority_check_before_request_witness :
  let E := sample_env {| status_code := 200; resp_json := Some (PDict []) |} in
  let a :=
    {| ct_list_id := "124"; ct_name := "Write report"; ct_description := None;
       ct_priority := Some 7; ct_assignees := None; ct_tags := None;
       ct_status := None; ct_due_date := None; ct_start_date := None;
       ct_notify_all := true |} in
  let u :=
    {| ut_task_id := "9hz"; ut_name := None; ut_description := None;
       ut_status := None; ut_priority := Some 7; ut_time_estimate := None;
       ut_archived := None; ut_add_assignees := None;
       ut_remove_assignees := None |} in
  create_task E sample_client a [] = (Raise priority_error, []) /\
  update_task E sample_client u [] = (Raise priority_error, []).
Proof.
  intros E a u.
  apply (priority_check_before_request E sample_client a u [] 7);
    try reflexivity; lia.
Defined.

Lemma priority_1_to_3_proceeds_witness :
  let E := sample_env {| status_code := 200; resp_json := Some (PDict []) |} in
  let a :=
    {| ct_list_id := "124"; ct_name := "Write report"; ct_description := None;
       ct_priority := Some 3; ct_assignees := None; ct_tags := None;
       ct_status := None; ct_due_date := None; ct_start_date := None;
       ct_notify_all := true |} in
  let u :=
    {| ut_task_id := "9hz"; ut_name := None; ut_description := None;
       ut_status := None; ut_priority := Some 3; ut_time_estimate := None;
       ut_archived := None; ut_add_assignees := None;
       ut_remove_assignees := None |} in
  (exists q, snd (create_task E sample_client a []) = [q] /\
             req_method q = POST) /\
  (exists q, snd (update_task E sample_client u []) = [q] /\
             req_method q = PUT).
Proof.
  intros E a u.
  apply (priority_1_to_3_proceeds E sample_client a u [] 3);
    try reflexivity; lia.
Defined.

(** X21. [update_task] raises the priority error, before any request, exactly
    when a priority is given that is neither 0 nor one of 1, 2, 3. *)
Theorem update_task_priority_error_iff :
  forall (E : Env) (self : ClickUpClient) (u : update_task_args)
         (h : list request),
    update_task E self u h = (Raise priority_error, []) <->
    exists p, ut_priority u = Some p /\ p <> 0 /\ ~ (1 <= p <= 3).
Proof.
  intros E self u h. split.
  - intro Hrun. destruct (priority_rejected (ut_priority u)) eqn:Hrej.
    + destruct (ut_priority u) as [p |]; [| discriminate Hrej].
      exists p. split; [reflexivity |]. apply priority_rejected_iff. exact Hrej.
    + pose proof (update_task_sent E self u h Hrej) as Hsent.
      rewrite Hrun in Hsent. discriminate Hsent.
  - intros (p & Hp & H0 & Hr). apply update_task_rejected. rewrite Hp.
    apply priority_rejected_iff. auto.
Qed.

Lemma due_date_converted_witness :
  let E := sample_env {| status_code := 200; resp_json := Some (PDict []) |} in
  let a :=
    {| ct_list_id := "124"; ct_name := "Write report"; ct_description := None;
       ct_priority := None; ct_assignees := None; ct_tags := None;
       ct_status := None; ct_due_date := Some "tomorrow";
       ct_start_date := None; ct_notify_all := true |} in
  exists d,
    snd (create_task E sample_client a []) =
      [post_req E sample_client "list/" (JsonText (PDict d)) None
         ["124"; "task"]] /\
    In ("due_date", PInt 1767225600000) d.
Proof.
  intros E a.
  apply (due_date_converted E sample_client a [] "tomorrow"
           (PInt 1767225600000)); try reflexivity; discriminate.
Defined.

(** X23. When [fuzzy_time_to_unix] raises on a non-empty [due_date],
    [create_task] raises the same exception and performs no request. *)
Theorem failed_date_conversion_stops_create_task :
  forall (E : Env) (self : ClickUpClient) (a : create_task_args)
         (h : list request) (s : string) (e : exn),
    priority_rejected (ct_priority a) = false ->
    ct_due_date a = Some s -> s <> "" ->
    fuzzy_time_to_unix E s = Raise e ->
    create_task E self a h = (Raise e, []).
Proof.
  intros E self a h s e Hp Hs Hne Hf. unfold create_task. rewrite Hp.
  apply bind_lift_Raise. rewrite Hs. simpl.
  apply String.eqb_neq in Hne. rewrite Hne. exact Hf.
Qed.

Lemma failed_date_conversion_stops_create_task_witness :
  create_task
    (sample_env_bad_dates {| status_code := 200; resp_json := Some (PDict []) |})
    sample_client
    {| ct_list_id := "124"; ct_name := "Write report"; ct_description := None;
       ct_priority := None; ct_assignees := None; ct_tags := None;
       ct_status := None; ct_due_date := Some "someday";
       ct_start_date := None; ct_notify_all := true |} [] =
  (Raise (OtherError "ValueError"), []).
Proof.
  apply (failed_date_conversion_stops_create_task
           (sample_env_bad_dates
              {| status_code := 200; resp_json := Some (PDict []) |})
           sample_client _ [] "someday" (OtherError "ValueError"));
    try reflexivity; discriminate.
Defined.

(** X24. An empty [due_date] string is falsy: [create_task] does not convert it
    and sends it as the empty string, whatever the date helper would do. *)
Theorem empty_due_date_sent_as_is :
  forall (E : Env) (self : ClickUpClient) (a : create_task_args)
         (h : list request),
    priority_rejected (ct_priority a) = false ->
    ct_due_date a = Some "" ->
    exists d,
      snd (create_task E self a h) =
        [post_req E self "list/" (JsonText (PDict d)) None
           [ct_list_id a; "task"]] /\
      In ("due_date", PStr "") d.
Proof.
  intros E self a h Hp Hs.
  exists (drop_none (create_task_params a (PStr ""))). split.
  - apply create_task_sent; [exact Hp | | reflexivity].
    rewrite Hs. reflexivity.
  - apply (drop_none_honours (create_task_params a (PStr "")));
      [distinct_keys | | discriminate].
    unfold create_task_params. simpl. tauto.
Qed.

Lemma empty_due_date_sent_as_is_witness :
  let E := sample_env_bad_dates
             {| status_code := 200; resp_json := Some (PDict []) |} in
  let a :=
    {| ct_list_id := "124"; ct_name := "Write report"; ct_description := None;
       ct_priority := None; ct_assignees := None; ct_tags := None;
       ct_status := None; ct_due_date := Some "";
       ct_start_date := None; ct_notify_all := true |} in
  exists d,
    snd (create_task E sample_client a []) =
      [post_req E sample_client "list/" (JsonText (PDict d)) None
         ["124"; "task"]] /\
    In ("due_date", PStr "") d.
Proof.
  intros E a.
  apply (empty_due_date_sent_as_is E sample_client a []); reflexivity.
Defined.

(** ** The assignees of [update_task] *)

Lemma with_assignees_value E add rem (d : dict) :
  ~ In "assignees" (keys d) ->
  (truthy E add = true -> truthy E rem = true ->
   In ("assignees", PDict [("add", add); ("rem", rem)])
      (drop_none (with_assignees E add rem d))) /\
  (truthy E add = true -> truthy E rem = false ->
   In ("assignees", PDict [("add", add)])
      (drop_none (with_assignees E add rem d))) /\
  (truthy E add = false -> truthy E rem = true ->
   In ("assignees", PDict [("rem", rem)])
      (drop_none (with_assignees E add rem d))).
Proof.
  intro Hfresh. unfold with_assignees, dict_update.
  repeat split; intros Ha Hr; rewrite Ha, Hr; simpl;
    rewrite (dict_set_fresh _ _ _ Hfresh);
    apply filter_In; (split; [apply in_or_app; right; left |]); reflexivity.
Qed.

(** X25. In the body of [update_task], the value under [assignees] is an object
    with the member [add] when [add_assignees] is a non-empty list and the
    member [rem] when [remove_assignees] is one, in this order, each holding
    the list as given. *)
Theorem update_task_assignees_value :
  forall (E : Env) (self : ClickUpClient) (u : update_task_args)
         (h : list request),
    priority_rejected (ut_priority u) = false ->
    exists d,
      snd (update_task E self u h) =
        [put_req E self "task/" (JsonText (PDict d)) [ut_task_id u]] /\
      (nonempty (ut_add_assignees u) -> nonempty (ut_remove_assignees u) ->
       In ("assignees",
           PDict [("add", of_opt PStrs (ut_add_assignees u));
                  ("rem", of_opt PInts (ut_remove_assignees u))]) d) /\
      (nonempty (ut_add_assignees u) -> ~ nonempty (ut_remove_assignees u) ->
       In ("assignees",
           PDict [("add", of_opt PStrs (ut_add_assignees u))]) d) /\
      (~ nonempty (ut_add_assignees u) -> nonempty (ut_remove_assignees u) ->
       In ("assignees",
           PDict [("rem", of_opt PInts (ut_remove_assignees u))]) d).
Proof.
  intros E self u h Hp.
  exists (drop_none (update_task_arguments E self u)).
  split; [apply update_task_sent; exact Hp |].
  rewrite update_task_arguments_eq.
  destruct (with_assignees_value E (of_opt PStrs (ut_add_assignees u))
              (of_opt PInts (ut_remove_assignees u)) (update_task_params u))
    as (Hboth & Hadd & Hrem); [not_a_key |].
  assert (Hno : forall b P, (b = true <-> P) -> ~ P -> b = false).
  { intros b P Hiff HnP. destruct b; [| reflexivity].
    exfalso. apply HnP. apply Hiff. reflexivity. }
  repeat split.
  - intros Ha Hr. apply Hboth; [apply truthy_PStrs | apply truthy_PInts];
      assumption.
  - intros Ha Hr. apply Hadd; [apply truthy_PStrs; assumption |].
    apply (Hno _ _ (truthy_PInts E (ut_remove_assignees u)) Hr).
  - intros Ha Hr. apply Hrem; [| apply truthy_PInts; assumption].
    apply (Hno _ _ (truthy_PStrs E (ut_add_assignees u)) Ha).
Qed.

Lemma update_task_assignees_value_witness :
  let E := sample_env {| status_code := 200; resp_json := Some (PDict []) |} in
  let u :=
    {| ut_task_id := "9hz"; ut_name := None; ut_description := None;
       ut_status := None; ut_priority := None; ut_time_estimate := None;
       ut_archived := None; ut_add_assignees := Some ["183"];
       ut_remove_assignees := Some [184; 185] |} in
  exists d,
    snd (update_task E sample_client u []) =
      [put_req E sample_client "task/" (JsonText (PDict d)) ["9hz"]] /\
    In ("assignees",
        PDict [("add", PList [PStr "183"]);
               ("rem", PList [PInt 184; PInt 185])]) d.
Proof.
  intros E u.
  destruct (update_task_assignees_value E sample_client u [] eq_refl)
    as (d & Hsent & Hboth & _ & _).
  exists d. split; [exact Hsent |].
  apply Hboth; eexists; eexists; reflexivity.
Defined.
